(** * Setlone App API: UID allocation and market-data normalisation

    A shallow embedding of the pieces of the Setlone backend that carry
    design content:

    - [src/models/User.js]: [generateUniqueUID], [getUserByUID],
      [getUserById], [updateUserUID], [updateUser], [emailExists],
      [deleteUser], [setEmailVerificationCode], [verifyEmailCode];
    - [src/routes/stock.js]: the handlers of [GET /stock/price/:symbol],
      [GET /stock/chart/:symbol] and [GET /futures/chart/:symbol];
    - the user routes: the handler of [PUT /users/:userId/profile] up to its
      call of [updateUser].

    JavaScript numbers are modelled by exact rationals ([Q]); integers that
    the code obtains through [Math.floor] are [Z].  Asynchronous calls are
    modelled by their outcome: the data base is an explicit table value and
    the upstream HTTP exchange is an explicit [fetch_outcome]. *)

From Stdlib Require Import ZArith QArith Qround Qabs List String Ascii Bool Lia.
From Stdlib Require Import Sorting.Sorted Sorting.Permutation.
Import ListNotations.

Local Open Scope Z_scope.

(** ** JavaScript base operations *)

Module Js.

(** What a JavaScript function call ends with: a returned value or a thrown
    exception. *)
Inductive completion (E A : Type) : Type :=
| Return (a : A)
| Throw (e : E).
Arguments Return {E A} a.
Arguments Throw {E A} e.

Definition bind {E A B} (c : completion E A) (k : A -> completion E B)
  : completion E B :=
  match c with
  | Return a => k a
  | Throw e => Throw e
  end.

(** The character of the decimal digit [d], for [0 <= d <= 9]. *)
Definition digit_char (d : Z) : ascii := ascii_of_nat (48 + Z.to_nat d).

(** Digits of [n], most significant first, pushed in front of [acc]. *)
Fixpoint decimal_digits (fuel : nat) (n : Z) (acc : string) : string :=
  match fuel with
  | O => acc
  | S fuel' =>
      let acc' := String (digit_char (n mod 10)) acc in
      if n / 10 =? 0 then acc' else decimal_digits fuel' (n / 10) acc'
  end.

(** [String(n)] for an integer [n] (below 10^21, where JavaScript prints
    plain decimal notation).  A number has no more decimal digits than
    binary ones, which bounds the recursion. *)
Definition String_of_Z (n : Z) : string :=
  if n <? 0
  then String "-" (decimal_digits (S (Z.to_nat (Z.log2 (- n)))) (- n) "")
  else decimal_digits (S (Z.to_nat (Z.log2 n))) n "".

Definition is_digit (c : ascii) : bool :=
  let k := nat_of_ascii c in (48 <=? k)%nat && (k <=? 57)%nat.

(** [/^\d{7}$/.test(s)]: seven characters, each of them in [0-9]. *)
Definition test_7_digits (s : string) : bool :=
  (String.length s =? 7)%nat && forallb is_digit (list_ascii_of_string s).

(** The number a string of decimal digits denotes. *)
Fixpoint decimal_value_from (v : Z) (s : string) : Z :=
  match s with
  | EmptyString => v
  | String c s' =>
      decimal_value_from (v * 10 + (Z.of_nat (nat_of_ascii c) - 48)) s'
  end.

Definition decimal_value (s : string) : Z := decimal_value_from 0 s.

(** [x < y] on numbers. *)
Definition Qlt_bool (x y : Q) : bool :=
  (Qnum x * QDen y <? Qnum y * QDen x)%Z.

(** A slot that holds a number, or [null]/[undefined] ([None]). *)
Definition jnum := option Q.

(** [x || d] for such a slot: [null], [undefined] and [0] are falsy. *)
Definition or_else (x : jnum) (d : Q) : Q :=
  match x with
  | Some q => if Qeq_bool q 0 then d else q
  | None => d
  end.

(** [a[i]] on an array of such slots; out of range is [undefined]. *)
Definition index (a : list jnum) (i : nat) : jnum :=
  match nth_error a i with
  | Some x => x
  | None => None
  end.

(** [Number(x)] for such a slot, as the comparison and [Math.floor] apply
    it: [null] converts to [0]. *)
Definition to_number (x : jnum) : Q :=
  match x with
  | Some q => q
  | None => 0%Q
  end.

End Js.

Notation "x <- c ;; k" := (Js.bind c (fun x => k))
  (at level 61, c at next level, right associativity).

(** ** [src/models/User.js] *)

Module User.

Import Js.

Definition maxAttempts : nat := 100.

(** The local variables of [generateUniqueUID]; [uid] is [undefined]
    ([None]) until the first draw. *)
Record uid_state : Type := {
  uid : option string;
  exists_ : bool;
  attempts : nat
}.

Section GenerateUniqueUID.

(** [Math_random k] is the value of the [k]-th call of [Math.random()]
    (counting from zero), and [uid_row_exists u] tells whether
    [SELECT 1 FROM users WHERE uid = u LIMIT 1] returns a row. *)
Variable Math_random : nat -> Q.
Variable uid_row_exists : string -> bool.

(** [String(Math.floor(Math.random() * 9000000) + 1000000)] at the
    [k]-th draw. *)
Definition candidate (k : nat) : string :=
  String_of_Z (Qfloor (Math_random k * 9000000) + 1000000).

(** One pass through the body of the [while] loop: exactly one draw per
    pass, so the draw number is [attempts]. *)
Definition uid_loop_body (st : uid_state) : uid_state :=
  let u := candidate (attempts st) in
  {| uid := Some u;
     exists_ := uid_row_exists u;
     attempts := S (attempts st) |}.

Definition uid_loop_cond (st : uid_state) : bool :=
  exists_ st && (attempts st <? maxAttempts)%nat.

Fixpoint uid_loop (fuel : nat) (st : uid_state) : uid_state :=
  match fuel with
  | O => st
  | S fuel' =>
      if uid_loop_cond st then uid_loop fuel' (uid_loop_body st) else st
  end.

Definition uid_init : uid_state :=
  {| uid := None; exists_ := true; attempts := 0 |}.

Definition generateUniqueUID : completion string (option string) :=
  let st := uid_loop maxAttempts uid_init in
  if (maxAttempts <=? attempts st)%nat
  then Throw "Failed to generate unique UID"%string
  else Return (uid st).

End GenerateUniqueUID.

(** A row of the [users] table, with the columns the UID operations read or
    write: the primary key, the [uid] column ([VARCHAR(7) NULL UNIQUE]) and
    whether [deleted_at] is set. *)
Record user_row : Type := {
  id : Z;
  row_uid : option string;
  deleted : bool
}.

Definition users_table := list user_row.

Definition uid_is (u : string) (r : user_row) : bool :=
  match row_uid r with
  | Some v => String.eqb v u
  | None => false
  end.

(** [SELECT ... FROM users WHERE uid = ? AND deleted_at IS NULL], then
    [rows.length > 0 ? rows[0] : null]. *)
Definition getUserByUID (db : users_table) (u : string) : option user_row :=
  find (fun r => uid_is u r && negb (deleted r)) db.

(** [SELECT ... FROM users WHERE id = ? AND deleted_at IS NULL], then
    [rows.length > 0 ? rows[0] : null]. *)
Definition getUserById (db : users_table) (userId : Z) : option user_row :=
  find (fun r => (id r =? userId) && negb (deleted r)) db.

(** The rows [UPDATE users SET uid = ? WHERE id = ? AND deleted_at IS NULL]
    writes. *)
Definition update_target (userId : Z) (r : user_row) : bool :=
  (id r =? userId) && negb (deleted r).

(** The [UPDATE] statement of [updateUserUID].  The [UNIQUE] key on [uid]
    makes it fail when it would give a row the uid that another row has. *)
Definition update_uid (db : users_table) (newUID : string) (userId : Z)
  : completion string users_table :=
  if existsb (update_target userId) db
     && existsb (fun r => uid_is newUID r && negb (update_target userId r)) db
  then Throw "Duplicate entry for key 'uid'"%string
  else Return
         (map (fun r =>
                 if update_target userId r
                 then {| id := id r; row_uid := Some newUID;
                         deleted := deleted r |}
                 else r) db).

(** [updateUserUID(userId, newUID)]: the table after the call and the row
    that [getUserById] returns, or the message of the error thrown. *)
Definition updateUserUID (db : users_table) (userId : Z) (newUID : string)
  : completion string (users_table * option user_row) :=
  if negb (test_7_digits newUID)
  then Throw "UID must be exactly 7 digits"%string
  else
    let existingUser := getUserByUID db newUID in
    if match existingUser with
       | Some u => negb (id u =? userId)
       | None => false
       end
    then Throw "UID already exists"%string
    else
      db' <- update_uid db newUID userId ;;
      Return (db', getUserById db' userId).

(** What the schema guarantees of every table state: [id] is the primary
    key and no two rows have the same non-null [uid]. *)
Definition users_table_ok (db : users_table) : Prop :=
  NoDup (map id db) /\
  forall r1 r2 u, In r1 db -> In r2 db ->
                  row_uid r1 = Some u -> row_uid r2 = Some u -> r1 = r2.

(** [SELECT 1 FROM users WHERE uid = ? LIMIT 1], then [rows.length > 0]: the
    existence check inside [generateUniqueUID].  Unlike [getUserByUID] it has
    no [deleted_at IS NULL] condition. *)
Definition uid_row_exists_in (db : users_table) (u : string) : bool :=
  existsb (uid_is u) db.

(** What the [UPDATE] of [updateUserUID] makes of one row. *)
Definition write_uid (newUID : string) (userId : Z) (r : user_row)
  : user_row :=
  if update_target userId r
  then {| id := id r; row_uid := Some newUID; deleted := deleted r |}
  else r.

End User.

(** ** [src/routes/stock.js] *)

Module Stock.

Import Js.

(** *** The upstream payload *)

Record Meta : Type := {
  regularMarketPrice : jnum;
  currentPrice : jnum;
  previousClose : jnum;
  regularMarketDayHigh : jnum;
  dayHigh : jnum;
  regularMarketDayLow : jnum;
  dayLow : jnum;
  regularMarketVolume : jnum;
  meta_volume : jnum;
  regularMarketTime : jnum;
  marketState : option string
}.

(** An entry of [indicators.quote]: each array may be absent. *)
Record Quote : Type := {
  quote_open : option (list jnum);
  quote_high : option (list jnum);
  quote_low : option (list jnum);
  quote_close : option (list jnum);
  quote_volume : option (list jnum)
}.

Record Indicators : Type := {
  quote : option (list (option Quote))
}.

Record ChartResult : Type := {
  meta : option Meta;
  timestamp : option (list jnum);
  indicators : option Indicators
}.

Record Chart : Type := {
  result : option (list ChartResult)
}.

Record Data : Type := {
  chart : option Chart
}.

(** The response of [fetch]: [json] is [None] when the body does not parse. *)
Record Response : Type := {
  ok : bool;
  status : Z;
  json : option Data
}.

(** [await fetch(url, ...)] either rejects or resolves to a response. *)
Inductive fetch_outcome : Type :=
| Rejected
| Fetched (r : Response).

(** The exceptions the handlers' [try] blocks catch. *)
Inductive exn : Type :=
| HttpError (status : Z)
| FetchFailed
| SyntaxError
| TypeError
| RangeError.

(** [error.message] where the code itself builds it. *)
Definition http_error_message (status : Z) : string :=
  ("HTTP error! status: " ++ String_of_Z status)%string.

(** What a handler answers: the object returned (status 200),
    [reply.code(404).send({ error })] or [reply.code(500).send(...)] from the
    [catch] block. *)
Inductive reply (A : Type) : Type :=
| Reply200 (body : A)
| Reply404 (error : string)
| Reply500 (e : exn).
Arguments Reply200 {A} body.
Arguments Reply404 {A} error.
Arguments Reply500 {A} e.

(** Property access on [undefined] or [null] throws a [TypeError]. *)
Definition access {A} (x : option A) : completion exn A :=
  match x with
  | Some a => Return a
  | None => Throw TypeError
  end.

(** The part both Yahoo handlers share: the fetch, the [response.ok] check
    and [response.json()]. *)
Definition fetch_json (f : fetch_outcome) : completion exn Data :=
  match f with
  | Rejected => Throw FetchFailed
  | Fetched response =>
      if negb (ok response) then Throw (HttpError (status response))
      else match json response with
           | Some data => Return data
           | None => Throw SyntaxError
           end
  end.

(** [!data.chart || !data.chart.result || data.chart.result.length === 0];
    otherwise [data.chart.result[0]]. *)
Definition first_result (data : Data) : option ChartResult :=
  match chart data with
  | None => None
  | Some c =>
      match result c with
      | None => None
      | Some [] => None
      | Some (r :: _) => Some r
      end
  end.

(** Runs a handler body inside its [try]/[catch]. *)
Definition try_catch {A} (body : completion exn (reply A)) : reply A :=
  match body with
  | Return r => r
  | Throw e => Reply500 e
  end.

(** *** [GET /stock/price/:symbol] *)

(** The object the handler returns, without [priceString] (a rendering of
    [price]).  [marketTime] is an ISO string in the source; it is kept as the
    time it denotes, in milliseconds since the epoch.  The arithmetic is
    that of exact rationals: what rounding to doubles adds is not
    modelled. *)
Record Snapshot : Type := {
  price : Q;
  priceChange : Q;
  priceChangePercent : Q;
  high24h : Q;
  low24h : Q;
  volume24h : Q;
  marketTime : Q;
  isMarketOpen : bool
}.

(** [meta.regularMarketPrice || meta.currentPrice || meta.previousClose || 0]:
    the first truthy operand, else [0]. *)
Definition resolved_price (m : Meta) : Q :=
  or_else (regularMarketPrice m)
    (or_else (currentPrice m) (or_else (previousClose m) 0)).

(** [meta.previousClose || price] *)
Definition resolved_previousClose (m : Meta) : Q :=
  or_else (previousClose m) (resolved_price m).

Definition market_open (state : option string) : bool :=
  match state with
  | Some s => String.eqb s "REGULAR" || String.eqb s "PRE"
              || String.eqb s "POST"
  | None => false
  end.

(** The integer part of a number, rounding towards zero. *)
Definition Qtruncate (x : Q) : Z :=
  if Qlt_bool x 0 then Qceiling x else Qfloor x.

(** [new Date(ms)]: the time value of the date, which is [ms] without its
    fraction, or [None] for an invalid date, which is what a time beyond
    8.64e15 milliseconds from the epoch gives. *)
Definition new_Date (ms : Q) : option Z :=
  if Qle_bool (Qabs ms) 8640000000000000 then Some (Qtruncate ms) else None.

(** [date.toISOString()], which throws a [RangeError] on an invalid date. *)
Definition toISOString (date : option Z) : completion exn Q :=
  match date with
  | Some t => Return (inject_Z t)
  | None => Throw RangeError
  end.

(** [meta.regularMarketTime ? new Date(meta.regularMarketTime * 1000) : null] *)
Definition market_date (m : Meta) : option (option Z) :=
  match regularMarketTime m with
  | Some t => if Qeq_bool t 0 then None else Some (new_Date (t * 1000))
  | None => None
  end.

(** [marketTime ? marketTime.toISOString() : now.toISOString()], where [now]
    is the time of [new Date()], a valid date. *)
Definition market_time_string (m : Meta) (now : Q) : completion exn Q :=
  match market_date m with
  | Some date => toISOString date
  | None => Return now
  end.

(** The object literal of the [return] statement, given the value of its
    [marketTime] entry. *)
Definition snapshot (m : Meta) (marketTime : Q) : Snapshot :=
  let price := resolved_price m in
  let previousClose := resolved_previousClose m in
  let change := (price - previousClose)%Q in
  let changePercent :=
    if Qlt_bool 0 previousClose
    then (change / previousClose * 100)%Q else 0%Q in
  {| price := price;
     priceChange := change;
     priceChangePercent := changePercent;
     high24h := or_else (regularMarketDayHigh m) (or_else (dayHigh m) price);
     low24h := or_else (regularMarketDayLow m) (or_else (dayLow m) price);
     volume24h := or_else (regularMarketVolume m) (or_else (meta_volume m) 0);
     marketTime := marketTime;
     isMarketOpen := market_open (marketState m) |}.

Definition stock_price (f : fetch_outcome) (now : Q) : reply Snapshot :=
  try_catch
    (data <- fetch_json f ;;
     match first_result data with
     | None => Return (Reply404 "No data found"%string)
     | Some result =>
         m <- access (meta result) ;;
         marketTime <- market_time_string m now ;;
         Return (Reply200 (snapshot m marketTime))
     end).

(** *** [GET /stock/chart/:symbol] *)

Record Candle : Type := {
  time : Z;
  open : Q;
  high : Q;
  low : Q;
  close : Q;
  volume : Q
}.

(** The [if (timestamp > 1e12)] statement of the loop body. *)
Definition candle_time (timestamp : jnum) : Z :=
  if Qlt_bool 1000000000000 (to_number timestamp)
  then Qfloor (to_number timestamp / 1000)
  else Qfloor (to_number timestamp).

(** [arr[i] || 0] on an array [arr]. *)
Definition cell (arr : list jnum) (i : nat) : Q := or_else (index arr i) 0.

(** [quote.p[i] || 0] where the property [p] of [quote] may be absent. *)
Definition price_at (arr : option (list jnum)) (i : nat)
  : completion exn Q :=
  a <- access arr ;; Return (cell a i).

Definition all_positive (o h l c : Q) : bool :=
  Qlt_bool 0 o && Qlt_bool 0 h && Qlt_bool 0 l && Qlt_bool 0 c.

(** The body of the [for] loop at index [i], where [timestamp] is
    [timestamps[i]]. *)
Definition chart_row (q : Quote) (i : nat) (timestamp : jnum)
  (candles : list Candle) : completion exn (list Candle) :=
  let time := candle_time timestamp in
  open <- price_at (quote_open q) i ;;
  high <- price_at (quote_high q) i ;;
  low <- price_at (quote_low q) i ;;
  close <- price_at (quote_close q) i ;;
  volume <- price_at (quote_volume q) i ;;
  Return
    (if all_positive open high low close
     then candles ++ [ {| time := time; open := open; high := high;
                          low := low; close := close; volume := volume |} ]
     else candles).

(** The [for] loop from index [i] on; [rest] is what is left of
    [timestamps] from there. *)
Fixpoint chart_loop (q : Quote) (rest : list jnum) (i : nat)
  (candles : list Candle) : completion exn (list Candle) :=
  match rest with
  | [] => Return candles
  | timestamp :: rest' =>
      candles' <- chart_row q i timestamp candles ;;
      chart_loop q rest' (S i) candles'
  end.

(** [Array.prototype.sort(compareFn)] is a stable sort: with a consistent
    comparison its result is the one list ordered by [compareFn] in which
    elements that compare equal keep their order. *)
Fixpoint sort_insert {A} (compareFn : A -> A -> Z) (x : A) (l : list A)
  : list A :=
  match l with
  | [] => [x]
  | y :: l' =>
      if compareFn x y <=? 0 then x :: y :: l'
      else y :: sort_insert compareFn x l'
  end.

Fixpoint Array_sort {A} (compareFn : A -> A -> Z) (l : list A) : list A :=
  match l with
  | [] => []
  | x :: l' => sort_insert compareFn x (Array_sort compareFn l')
  end.

(** [(a, b) => a.time - b.time] *)
Definition by_time (a b : Candle) : Z := time a - time b.

(** [!quote || !quote.open || quote.open.length === 0] *)
Definition no_quote_data (q : option Quote) : bool :=
  match q with
  | None => true
  | Some q' =>
      match quote_open q' with
      | None => true
      | Some [] => true
      | Some (_ :: _) => false
      end
  end.

Definition stock_chart (f : fetch_outcome) : reply (list Candle) :=
  try_catch
    (data <- fetch_json f ;;
     match first_result data with
     | None => Return (Reply404 "No data found"%string)
     | Some result =>
         let timestamps :=
           match timestamp result with Some t => t | None => [] end in
         ind <- access (indicators result) ;;
         quotes <- access (quote ind) ;;
         let quote0 :=
           match quotes with q :: _ => q | [] => None end in
         if no_quote_data quote0
         then Return (Reply404 "No quote data found"%string)
         else
           q <- access quote0 ;;
           candles <- chart_loop q timestamps 0 [] ;;
           Return (Reply200 (Array_sort by_time candles))
     end).

(** The payload of [f] was fetched with a success status and its first
    result carries the parallel arrays [ts] (timestamps) and [o], [h], [l],
    [c], [v] (the arrays of the first quote entry). *)
Definition carries_arrays (f : fetch_outcome) (ts o h l c v : list jnum)
  : Prop :=
  exists response data result ind quotes,
    f = Fetched response /\ ok response = true /\
    json response = Some data /\ first_result data = Some result /\
    timestamp result = Some ts /\ indicators result = Some ind /\
    quote ind
    = Some (Some {| quote_open := Some o; quote_high := Some h;
                    quote_low := Some l; quote_close := Some c;
                    quote_volume := Some v |} :: quotes).

(** The candle that row [i] of the parallel arrays describes. *)
Definition row_candle (ts o h l c v : list jnum) (i : nat) : Candle :=
  {| time := candle_time (index ts i);
     open := cell o i; high := cell h i; low := cell l i;
     close := cell c i; volume := cell v i |}.

(** The test [open > 0 && high > 0 && low > 0 && close > 0] at row [i]. *)
Definition row_kept (o h l c : list jnum) (i : nat) : bool :=
  all_positive (cell o i) (cell h i) (cell l i) (cell c i).

(** The order the handler sorts by. *)
Definition time_le (a b : Candle) : Prop := time a <= time b.

(** A candle whose four prices are strictly positive. *)
Definition positive_prices (cd : Candle) : Prop :=
  (0 < open cd /\ 0 < high cd /\ 0 < low cd /\ 0 < close cd)%Q.

(** *** [GET /futures/chart/:symbol] *)

Definition cryptoFutures : list string :=
  ["BTC"; "ETH"; "XRP"; "BNB"; "SOL"; "ADA"; "DOGE"; "DOT"]%string.

(** [Array.prototype.includes] on strings. *)
Definition includes (l : list string) (s : string) : bool :=
  existsb (String.eqb s) l.

Definition futuresSymbol (symbol : string) : string :=
  if includes cryptoFutures symbol then (symbol ++ "USDT")%string
  else symbol.

Definition binanceInterval (interval : string) : string :=
  if String.eqb interval "1m" then "1m"%string
  else if String.eqb interval "5m" then "5m"%string
  else if String.eqb interval "15m" then "15m"%string
  else if String.eqb interval "1h" then "1h"%string
  else "1d"%string.

(** The URL the handler fetches; [limit] is the query parameter as the
    template literal prints it. *)
Definition futures_url (symbol interval limit : string) : string :=
  ("https://fapi.binance.com/fapi/v1/klines?symbol=" ++ futuresSymbol symbol
   ++ "&interval=" ++ binanceInterval interval ++ "&limit=" ++ limit)%string.

End Stock.

(** ** [src/models/User.js]: soft deletion and e-mail verification *)

Module Account.

Import Js.

(** A row of the [users] table, with the columns that [emailExists],
    [deleteUser], [setEmailVerificationCode] and [verifyEmailCode] read or
    write.  Timestamps are numbers; [None] is SQL [NULL]. *)
Record account : Type := {
  account_id : Z;
  email : string;
  email_verification_code : option string;
  email_verified : bool;
  email_verification_sent_at : option Z;
  is_active : bool;
  deleted_at : option Z
}.

Definition accounts := list account.

Section Statements.

(** [a = b] on strings as the column collation decides it. *)
Variable sql_eq : string -> string -> bool.

(** Whether the server runs in strict SQL mode (its default). *)
Variable strict_mode : bool.

Definition only_spaces (s : string) : bool :=
  forallb (fun c => Ascii.eqb c " ") (list_ascii_of_string s).

(** What a row gets when [value] is assigned to a [VARCHAR(n)] column (a
    string being the sequence of its characters): the value if it has at
    most [n] characters.  A longer value is refused in
    strict mode, unless all it has beyond [n] characters is spaces; where it
    is not refused it is cut to [n] characters. *)
Definition store_varchar (n : nat) (value : string)
  : completion string string :=
  if (String.length value <=? n)%nat then Return value
  else if strict_mode
          && negb (only_spaces
                     (substring n (String.length value - n) value))
  then Throw "Data too long for column"%string
  else Return (substring 0 n value).

(** [deleted_at IS NULL] *)
Definition not_deleted (r : account) : bool :=
  match deleted_at r with
  | None => true
  | Some _ => false
  end.

(** [SELECT 1 FROM users WHERE email = ? AND deleted_at IS NULL LIMIT 1],
    then [rows.length > 0]. *)
Definition emailExists (db : accounts) (e : string) : bool :=
  existsb (fun r => sql_eq (email r) e && not_deleted r) db.

(** An [UPDATE]: every row that the [WHERE] condition selects is rewritten,
    and [affectedRows] counts the rows selected (the driver connects with
    the found-rows flag; for [deleteUser] and [verifyEmailCode] every row
    selected is also changed). *)
Definition update_where (selected : account -> bool)
  (set : account -> account) (db : accounts) : accounts * nat :=
  (map (fun r => if selected r then set r else r) db,
   List.length (filter selected db)).

(** [UPDATE users SET deleted_at = CURRENT_TIMESTAMP, is_active = FALSE
    WHERE id = ? AND deleted_at IS NULL], then [affectedRows > 0]. *)
Definition deleteUser (db : accounts) (now : Z) (userId : Z)
  : accounts * bool :=
  let (db', affectedRows) :=
    update_where
      (fun r => (account_id r =? userId) && not_deleted r)
      (fun r =>
         {| account_id := account_id r; email := email r;
            email_verification_code := email_verification_code r;
            email_verified := email_verified r;
            email_verification_sent_at := email_verification_sent_at r;
            is_active := false; deleted_at := Some now |})
      db in
  (db', (0 <? affectedRows)%nat).

(** [UPDATE users SET email_verification_code = ?,
    email_verification_sent_at = CURRENT_TIMESTAMP
    WHERE email = ? AND deleted_at IS NULL], then [affectedRows > 0].  The
    column [email_verification_code] is a [VARCHAR(10)]; the server assigns
    to it, and so can refuse the code, only when a row is selected. *)
Definition setEmailVerificationCode (db : accounts) (now : Z)
  (e code : string) : completion string (accounts * bool) :=
  let selected := fun r => sql_eq (email r) e && not_deleted r in
  stored <- (if existsb selected db then store_varchar 10 code
             else Return code) ;;
  let (db', affectedRows) :=
    update_where selected
      (fun r =>
         {| account_id := account_id r; email := email r;
            email_verification_code := Some stored;
            email_verified := email_verified r;
            email_verification_sent_at := Some now;
            is_active := is_active r; deleted_at := deleted_at r |})
      db in
  Return (db', (0 <? affectedRows)%nat).

(** [email_verification_code = ?]: a [NULL] code equals nothing. *)
Definition code_is (code : string) (r : account) : bool :=
  match email_verification_code r with
  | Some c => sql_eq c code
  | None => false
  end.

(** [UPDATE users SET email_verified = TRUE, email_verification_code = NULL
    WHERE email = ? AND email_verification_code = ? AND deleted_at IS NULL],
    then [affectedRows > 0]. *)
Definition verifyEmailCode (db : accounts) (e code : string)
  : accounts * bool :=
  let (db', affectedRows) :=
    update_where
      (fun r => sql_eq (email r) e && code_is code r && not_deleted r)
      (fun r =>
         {| account_id := account_id r; email := email r;
            email_verification_code := None;
            email_verified := true;
            email_verification_sent_at := email_verification_sent_at r;
            is_active := is_active r; deleted_at := deleted_at r |})
      db in
  (db', (0 <? affectedRows)%nat).

End Statements.

End Account.

(** ** [updateUser] of [src/models/User.js] and the profile route that
    calls it *)

Module Profile.

Import Js.

Definition allowedFields : list string :=
  ["username"; "profile_image"; "bio"; "is_active"; "is_verified"]%string.

Section UpdateUser.

(** The values a request puts into [updateData]. *)
Variable value : Type.

(** What is bound to a placeholder: a value of [updateData] or the user
    id pushed last. *)
Inductive param : Type :=
| Bound (v : value)
| UserId (userId : Z).

(** The [for] loop over [Object.entries(updateData)]; an entry whose value
    is [undefined] is [(key, None)]. *)
Fixpoint updateUser_loop (entries : list (string * option value))
  (updates : list string) (values : list param)
  : list string * list param :=
  match entries with
  | [] => (updates, values)
  | (key, v) :: entries' =>
      match v with
      | Some x =>
          if existsb (String.eqb key) allowedFields
          then updateUser_loop entries'
                 (updates ++ [(key ++ " = ?")%string])
                 (values ++ [Bound x])
          else updateUser_loop entries' updates values
      | None => updateUser_loop entries' updates values
      end
  end.

Definition newline : string := String (ascii_of_nat 10) EmptyString.

(** The text of the [UPDATE] statement for the given [SET] items. *)
Definition updateUser_sql (updates : list string) : string :=
  (newline ++ "    UPDATE users" ++ newline
   ++ "    SET " ++ String.concat ", " updates ++ newline
   ++ "    WHERE id = ? AND deleted_at IS NULL" ++ newline ++ "  ")%string.

(** The statement [updateUser(userId, updateData)] sends before it reads the
    user back, with its parameters; [None] when it sends none
    ([updates.length === 0]). *)
Definition updateUser_query (userId : Z)
  (updateData : list (string * option value))
  : option (string * list param) :=
  let (updates, values) := updateUser_loop updateData [] [] in
  match updates with
  | [] => None
  | _ :: _ => Some (updateUser_sql updates, values ++ [UserId userId])
  end.

(** The entries of [updateData] that the loop takes: those with an
    allow-listed key and a value that is not [undefined]. *)
Definition taken_entries (entries : list (string * option value))
  : list (string * value) :=
  flat_map
    (fun entry =>
       match snd entry with
       | Some x =>
           if existsb (String.eqb (fst entry)) allowedFields
           then [(fst entry, x)] else []
       | None => []
       end)
    entries.

End UpdateUser.

(** How often the character [c] occurs in [s]. *)
Fixpoint count_char (c : ascii) (s : string) : nat :=
  match s with
  | EmptyString => 0
  | String a s' => (if Ascii.eqb a c then 1 else 0) + count_char c s'
  end.

Arguments Bound {value} v.
Arguments UserId {value} userId.

(** How far the handler of [PUT /users/:userId/profile] gets before it
    awaits [updateUser]. *)
Inductive profile_step : Type :=
| Forbidden
| InvalidImage
| CallUpdateUser (userId : Z) (updateData : list (string * option string)).

Definition url_or_upload (profile_image : string) : bool :=
  String.prefix "http://" profile_image
  || String.prefix "https://" profile_image
  || String.prefix "/uploads/" profile_image.

(** The handler up to the call of [updateUser]: [request_user_id] is
    [request.user.id], [userId] is [parseInt(request.params.userId, 10)], and
    [profile_image] and [bio] are the body fields ([None] when
    [undefined]). *)
Definition put_profile (request_user_id userId : Z)
  (profile_image bio : option string) : profile_step :=
  if negb (request_user_id =? userId) then Forbidden
  else
    let bio_entry :=
      match bio with
      | Some b => [("bio"%string, Some b)]
      | None => []
      end in
    match profile_image with
    | Some image =>
        if String.prefix "data:image" image
        then CallUpdateUser userId
               (("profile_image"%string, Some image) :: bio_entry)
        else if url_or_upload image
        then CallUpdateUser userId
               (("profile_image"%string, Some image) :: bio_entry)
        else InvalidImage
    | None => CallUpdateUser userId bio_entry
    end.

End Profile.

(** ** Scenarios

    Concrete inputs on which the properties below are evaluated. *)

Module Scenario.

Import Js User Stock.

(** A random source whose [k]-th draw makes the candidate [1000000 + k]. *)
Definition counting_random (k : nat) : Q := Z.of_nat k # 9000000.

(** A [users] table in which every uid but ["1000099"] is taken. *)
Definition all_taken_but_1000099 (u : string) : bool :=
  negb (String.eqb u "1000099").

(** A random source that always draws one half, and an empty [users]
    table. *)
Definition constant_half (k : nat) : Q := 1 # 2.
Definition none_taken (u : string) : bool := false.

(** Two active users. *)
Definition alice : user_row :=
  {| id := 1; row_uid := Some "1234567"%string; deleted := false |}.
Definition bob : user_row :=
  {| id := 2; row_uid := Some "7654321"%string; deleted := false |}.
Definition two_users : users_table := [alice; bob].

(** The same table with a third, soft-deleted user. *)
Definition carol : user_row :=
  {| id := 3; row_uid := Some "5555555"%string; deleted := true |}.
Definition three_users : users_table := [alice; bob; carol].

(** An account that waits for its e-mail verification, and the same
    account once the code 123456 was sent at time 50, once it is verified,
    and once it is deleted at time 60. *)
Definition dana : Account.account :=
  {| Account.account_id := 4; Account.email := "dana@example.com"%string;
     Account.email_verification_code := None;
     Account.email_verified := false;
     Account.email_verification_sent_at := None;
     Account.is_active := true; Account.deleted_at := None |}.

Definition dana_sent : Account.account :=
  {| Account.account_id := 4; Account.email := "dana@example.com"%string;
     Account.email_verification_code := Some "123456"%string;
     Account.email_verified := false;
     Account.email_verification_sent_at := Some 50;
     Account.is_active := true; Account.deleted_at := None |}.

Definition dana_verified : Account.account :=
  {| Account.account_id := 4; Account.email := "dana@example.com"%string;
     Account.email_verification_code := None;
     Account.email_verified := true;
     Account.email_verification_sent_at := Some 50;
     Account.is_active := true; Account.deleted_at := None |}.

Definition dana_deleted : Account.account :=
  {| Account.account_id := 4; Account.email := "dana@example.com"%string;
     Account.email_verification_code := None;
     Account.email_verified := false;
     Account.email_verification_sent_at := None;
     Account.is_active := false; Account.deleted_at := Some 60 |}.

(** An [updateData] object with an allow-listed column, a column that is
    not on the list and an [undefined] value. *)
Definition mixed_updateData : list (string * option string) :=
  [("bio", Some "hello"); ("uid", Some "0000001"); ("username", None)]%string.

(** [alice] after her uid is changed to ["7777777"]. *)
Definition alice_7777777 : user_row :=
  {| id := 1; row_uid := Some "7777777"%string; deleted := false |}.

(** A successful upstream response whose first result carries the given
    parallel arrays. *)
Definition chart_response (ts o h l c v : list jnum) : fetch_outcome :=
  Fetched
    {| ok := true; status := 200;
       json := Some {| chart := Some {| result := Some [
         {| meta := None; timestamp := Some ts;
            indicators := Some {| quote := Some [
              Some {| quote_open := Some o; quote_high := Some h;
                      quote_low := Some l; quote_close := Some c;
                      quote_volume := Some v |} ] |} |} ] |} |} |}.

(** The rows of the zero-price example: the second row has no price. *)
Definition timestamps3 : list jnum := [Some 100; Some 200; Some 300]%Q.
Definition open3 : list jnum := [Some 10; Some 0; Some 30]%Q.
Definition high3 : list jnum := [Some 11; Some 0; Some 31]%Q.
Definition low3 : list jnum := [Some 9; Some 0; Some 29]%Q.
Definition close3 : list jnum := [Some 10.5; Some 0; Some 30.5]%Q.
Definition volume3 : list jnum := [Some 1; Some 0; Some 3]%Q.

Definition three_rows : fetch_outcome :=
  chart_response timestamps3 open3 high3 low3 close3 volume3.

(** Rows that arrive latest first. *)
Definition reversed_rows : fetch_outcome :=
  chart_response
    [Some 300; Some 200; Some 100]%Q
    [Some 30; Some 20; Some 10]%Q
    [Some 31; Some 21; Some 11]%Q
    [Some 29; Some 19; Some 9]%Q
    [Some 30.5; Some 20.5; Some 10.5]%Q
    [Some 3; Some 2; Some 1]%Q.

(** The candles of rows 0 and 2 of [three_rows]. *)
Definition first_and_third : list Candle :=
  [ {| time := 100; open := 10; high := 11; low := 9; close := 10.5;
       volume := 1 |};
    {| time := 300; open := 30; high := 31; low := 29; close := 30.5;
       volume := 3 |} ].

(** The candles of [reversed_rows], earliest first. *)
Definition earliest_first : list Candle :=
  [ {| time := 100; open := 10; high := 11; low := 9; close := 10.5;
       volume := 1 |};
    {| time := 200; open := 20; high := 21; low := 19; close := 20.5;
       volume := 2 |};
    {| time := 300; open := 30; high := 31; low := 29; close := 30.5;
       volume := 3 |} ].

(** One row, stamped with the smallest 13-digit number. *)
Definition row_at_1e12 : fetch_outcome :=
  chart_response [Some 1000000000000]%Q
    [Some 1]%Q [Some 1]%Q [Some 1]%Q [Some 1]%Q [Some 1]%Q.

(** A successful upstream answer whose first result has timestamps and an
    [open] array but no [high] array, and one with the arrays but without
    timestamps. *)
Definition no_high_array : Response :=
  {| ok := true; status := 200;
     json := Some {| chart := Some {| result := Some [
       {| meta := None; timestamp := Some [Some 100%Q];
          indicators := Some {| quote := Some [
            Some {| quote_open := Some [Some 10%Q]; quote_high := None;
                    quote_low := Some [Some 9%Q];
                    quote_close := Some [Some 10%Q];
                    quote_volume := Some [Some 1%Q] |} ] |} |} ] |} |} |}.

Definition no_timestamps : Response :=
  {| ok := true; status := 200;
     json := Some {| chart := Some {| result := Some [
       {| meta := None; timestamp := None;
          indicators := Some {| quote := Some [
            Some {| quote_open := Some [Some 10%Q]; quote_high := None;
                    quote_low := None; quote_close := None;
                    quote_volume := None |} ] |} |} ] |} |} |}.

(** Two rows with the same timestamp, and their candles in upstream
    order. *)
Definition same_time_rows : fetch_outcome :=
  chart_response
    [Some 200; Some 100; Some 200]%Q
    [Some 1; Some 2; Some 3]%Q
    [Some 1; Some 2; Some 3]%Q
    [Some 1; Some 2; Some 3]%Q
    [Some 1; Some 2; Some 3]%Q
    [Some 1; Some 2; Some 3]%Q.

Definition same_time_sorted : list Candle :=
  [ {| time := 100; open := 2; high := 2; low := 2; close := 2;
       volume := 2 |};
    {| time := 200; open := 1; high := 1; low := 1; close := 1;
       volume := 1 |};
    {| time := 200; open := 3; high := 3; low := 3; close := 3;
       volume := 3 |} ].

(** An upstream answer with status 503. *)
Definition unavailable : Response :=
  {| ok := false; status := 503; json := None |}.

(** Successful upstream answers without data: an empty [result] array, and
    a first quote entry whose [open] array is empty. *)
Definition empty_result : Response :=
  {| ok := true; status := 200;
     json := Some {| chart := Some {| result := Some [] |} |} |}.

Definition empty_open : Response :=
  {| ok := true; status := 200;
     json := Some {| chart := Some {| result := Some [
       {| meta := None; timestamp := Some [Some 100%Q];
          indicators := Some {| quote := Some [
            Some {| quote_open := Some []; quote_high := None;
                    quote_low := None; quote_close := None;
                    quote_volume := None |} ] |} |} ] |} |} |}.

(** Quote metadata with the given regular market price and previous close
    and nothing else. *)
Definition meta_of (regular previous : jnum) : Meta :=
  {| regularMarketPrice := regular; currentPrice := None;
     previousClose := previous;
     regularMarketDayHigh := None; dayHigh := None;
     regularMarketDayLow := None; dayLow := None;
     regularMarketVolume := None; meta_volume := None;
     regularMarketTime := None; marketState := None |}.

(** A successful upstream answer whose only result has the metadata [m]. *)
Definition price_result (m : Meta) : ChartResult :=
  {| meta := Some m; timestamp := None; indicators := None |}.

Definition price_data (m : Meta) : Data :=
  {| chart := Some {| result := Some [price_result m] |} |}.

Definition price_response (m : Meta) : fetch_outcome :=
  Fetched {| ok := true; status := 200; json := Some (price_data m) |}.

End Scenario.

(** * Properties *)

Import Js User Stock.

(** ** Decimal rendering *)

Lemma digit_char_spec (d : Z) :
  0 <= d < 10 ->
  is_digit (digit_char d) = true /\
  Z.of_nat (nat_of_ascii (digit_char d)) - 48 = d.
Proof.
  intros Hd.
  assert (Hcases : d = 0 \/ d = 1 \/ d = 2 \/ d = 3 \/ d = 4 \/ d = 5 \/
                   d = 6 \/ d = 7 \/ d = 8 \/ d = 9) by lia.
  repeat (destruct Hcases as [-> | Hcases]; [split; reflexivity |]).
  subst d; split; reflexivity.
Qed.

Lemma decimal_digits_all_digits (fuel : nat) :
  forall n acc,
    0 <= n ->
    forallb is_digit (list_ascii_of_string acc) = true ->
    forallb is_digit (list_ascii_of_string (decimal_digits fuel n acc)) = true.
Proof.
  induction fuel as [| fuel IH]; intros n acc Hn Hacc;
    cbn [decimal_digits]; [exact Hacc |].
  assert (Hd : is_digit (digit_char (n mod 10)) = true).
  { apply digit_char_spec, Z.mod_pos_bound; lia. }
  assert (Hacc' : forallb is_digit
            (list_ascii_of_string (String (digit_char (n mod 10)) acc)) = true).
  { cbn [list_ascii_of_string forallb]. now rewrite Hd, Hacc. }
  destruct (n / 10 =? 0); [exact Hacc' |].
  apply IH; [apply Z.div_pos; lia | exact Hacc'].
Qed.

Lemma decimal_digits_length (k : nat) :
  forall fuel n acc,
    (k < fuel)%nat ->
    10 ^ Z.of_nat k <= n < 10 ^ Z.of_nat (S k) ->
    String.length (decimal_digits fuel n acc) = (S k + String.length acc)%nat.
Proof.
  induction k as [| k IH]; intros fuel n acc Hfuel Hn;
    (destruct fuel as [| fuel]; [lia |]); cbn [decimal_digits].
  - change (10 ^ Z.of_nat 0) with 1 in Hn. change (10 ^ Z.of_nat 1) with 10 in Hn.
    assert (Hq : n / 10 = 0) by (apply Z.div_small; lia).
    rewrite Hq. reflexivity.
  - rewrite !Nat2Z.inj_succ, !Z.pow_succ_r in Hn by lia.
    assert (Hlo : 10 ^ Z.of_nat k <= n / 10).
    { apply Z.div_le_lower_bound; lia. }
    assert (Hhi : n / 10 < 10 ^ Z.of_nat (S k)).
    { rewrite Nat2Z.inj_succ, Z.pow_succ_r by lia.
      apply Z.div_lt_upper_bound; lia. }
    assert (Hpos : 0 < 10 ^ Z.of_nat k) by (apply Z.pow_pos_nonneg; lia).
    destruct (Z.eqb_spec (n / 10) 0) as [Hz | _]; [lia |].
    rewrite (IH fuel (n / 10)) by (lia || (split; assumption)).
    cbn [String.length]. lia.
Qed.

Lemma decimal_digits_value (fuel : nat) :
  forall n acc,
    0 <= n < 10 ^ Z.of_nat fuel ->
    decimal_value_from 0 (decimal_digits fuel n acc) = decimal_value_from n acc.
Proof.
  induction fuel as [| fuel IH]; intros n acc Hn.
  - change (10 ^ Z.of_nat 0) with 1 in Hn.
    assert (n = 0) as -> by lia. reflexivity.
  - rewrite Nat2Z.inj_succ, Z.pow_succ_r in Hn by lia.
    cbn [decimal_digits].
    pose proof (Z.div_mod n 10 ltac:(lia)) as Hdm.
    pose proof (Z.mod_pos_bound n 10 ltac:(lia)) as Hm.
    destruct (digit_char_spec (n mod 10) Hm) as [_ Hval].
    destruct (Z.eqb_spec (n / 10) 0) as [Hz | Hnz].
    + cbn [decimal_value_from]. rewrite Hval. f_equal. lia.
    + rewrite IH.
      * cbn [decimal_value_from]. rewrite Hval. f_equal. lia.
      * split; [apply Z.div_pos; lia | apply Z.div_lt_upper_bound; lia].
Qed.

(** [String(n)] of a natural number reads back as [n]. *)
Lemma String_of_Z_value (n : Z) :
  0 <= n -> decimal_value (String_of_Z n) = n.
Proof.
  intros Hn. unfold decimal_value, String_of_Z.
  destruct (Z.ltb_spec n 0) as [Hneg | _]; [lia |].
  rewrite decimal_digits_value; [reflexivity |].
  split; [exact Hn |].
  rewrite Nat2Z.inj_succ, Z2Nat.id by apply Z.log2_nonneg.
  destruct (Z.eq_dec n 0) as [-> | Hnz]; [reflexivity |].
  destruct (Z.log2_spec n ltac:(lia)) as [_ Hlt].
  eapply Z.lt_le_trans; [exact Hlt |].
  apply Z.pow_le_mono_l. lia.
Qed.

(** The numbers from 1000000 to 9999999 print as seven digits. *)
Lemma String_of_Z_7_digits (n : Z) :
  1000000 <= n <= 9999999 -> test_7_digits (String_of_Z n) = true.
Proof.
  intros Hn. unfold test_7_digits, String_of_Z.
  destruct (Z.ltb_spec n 0) as [Hneg | _]; [lia |].
  assert (Hlog : 19 <= Z.log2 n).
  { change 19 with (Z.log2 (2 ^ 19)). apply Z.log2_le_mono. lia. }
  rewrite (decimal_digits_length 6).
  - rewrite decimal_digits_all_digits; [reflexivity | lia | reflexivity].
  - lia.
  - change (10 ^ Z.of_nat 6) with 1000000.
    change (10 ^ Z.of_nat 7) with 10000000. lia.
Qed.

(** ** The UID allocation loop *)

Lemma first_false (P : nat -> bool) (n : nat) :
  (forall j, (j < n)%nat -> P j = true) \/
  (exists k, (k < n)%nat /\ P k = false /\
             forall j, (j < k)%nat -> P j = true).
Proof.
  induction n as [| n [Hall | (k & Hk & Hfalse & Hbefore)]].
  - left. intros j Hj. lia.
  - destruct (P n) eqn:Hn.
    + left. intros j Hj.
      destruct (Nat.eq_dec j n) as [-> | Hne]; [exact Hn | apply Hall; lia].
    + right. exists n. repeat split; [lia | exact Hn | exact Hall].
  - right. exists k. repeat split; [lia | exact Hfalse | exact Hbefore].
Qed.

(** [Math.floor(Math.random() * 9000000) + 1000000] stays in the seven-digit
    range when [Math.random()] is in [[0, 1)]. *)
Lemma draw_range (r : Q) :
  (0 <= r)%Q -> (r < 1)%Q ->
  1000000 <= Qfloor (r * 9000000) + 1000000 <= 9999999.
Proof.
  intros Hlo Hhi.
  assert (H0 : 0 <= Qfloor (r * 9000000)).
  { change 0 with (Qfloor 0). apply Qfloor_resp_le.
    apply Qmult_le_0_compat; [exact Hlo | discriminate]. }
  assert (H1 : Qfloor (r * 9000000) < 9000000).
  { rewrite Zlt_Qlt.
    eapply Qle_lt_trans; [apply Qfloor_le |].
    change (inject_Z 9000000) with (1 * 9000000)%Q.
    apply Qmult_lt_compat_r; [reflexivity | exact Hhi]. }
  lia.
Qed.

Section UidAllocation.

Variable rnd : nat -> Q.
Variable taken : string -> bool.


Lemma uid_loop_exit (fuel : nat) (st : uid_state) :
  uid_loop_cond st = false -> uid_loop rnd taken fuel st = st.
Proof.
  intros Hc. destruct fuel; [reflexivity |].
  cbn [uid_loop]. now rewrite Hc.
Qed.

(** The fuel never runs out before the loop condition fails. *)
Lemma uid_loop_terminates (fuel : nat) :
  forall st,
    (maxAttempts - attempts st <= fuel)%nat ->
    uid_loop_cond (uid_loop rnd taken fuel st) = false.
Proof.
  induction fuel as [| fuel IH]; intros st Hfuel.
  - unfold uid_loop_cond. cbn [uid_loop].
    destruct (Nat.ltb_spec (attempts st) maxAttempts) as [Hlt | _]; [lia |].
    apply andb_false_r.
  - cbn [uid_loop].
    destruct (uid_loop_cond st) eqn:Hc; [| exact Hc].
    apply IH. cbn [uid_loop_body attempts]. lia.
Qed.

(** The call's loop, run with [maxAttempts] of fuel from the initial state,
    stops because its condition fails, after at most [maxAttempts] draws. *)
Lemma generateUniqueUID_loop_exits :
  uid_loop_cond (uid_loop rnd taken maxAttempts uid_init) = false.
Proof. apply uid_loop_terminates. cbn [uid_init attempts]. lia. Qed.

Lemma uid_loop_attempts_bound (fuel : nat) :
  forall st,
    (attempts st <= maxAttempts)%nat ->
    (attempts (uid_loop rnd taken fuel st) <= maxAttempts)%nat.
Proof.
  induction fuel as [| fuel IH]; intros st Hst; cbn [uid_loop]; [exact Hst |].
  destruct (uid_loop_cond st) eqn:Hc; [| exact Hst].
  apply IH. cbn [uid_loop_body attempts].
  unfold uid_loop_cond in Hc. apply andb_true_iff in Hc.
  destruct Hc as [_ Hlt]. apply Nat.ltb_lt in Hlt. lia.
Qed.

(** The loop leaves at the first candidate that is not taken, with
    [attempts] one more than the number of that draw. *)
Lemma uid_loop_finds (n : nat) :
  forall fuel a u,
    (a + n < maxAttempts)%nat ->
    (n < fuel)%nat ->
    (forall j, (a <= j < a + n)%nat -> taken (candidate rnd j) = true) ->
    taken (candidate rnd (a + n)) = false ->
    uid_loop rnd taken fuel {| uid := u; exists_ := true; attempts := a |}
    = {| uid := Some (candidate rnd (a + n)); exists_ := false;
         attempts := S (a + n) |}.
Proof.
  induction n as [| n IH]; intros fuel a u Hbound Hfuel Htaken Hfree;
    (destruct fuel as [| fuel]; [lia |]);
    cbn [uid_loop]; unfold uid_loop_cond at 1;
    cbn [exists_ attempts andb];
    (destruct (Nat.ltb_spec a maxAttempts) as [_ | Hge]; [| lia]);
    unfold uid_loop_body; cbn [attempts].
  - rewrite Nat.add_0_r in *. rewrite Hfree.
    now apply uid_loop_exit.
  - rewrite (Htaken a) by lia.
    replace (a + S n)%nat with (S a + n)%nat in * by lia.
    apply IH; [lia | lia | | exact Hfree].
    intros j Hj. apply Htaken. lia.
Qed.

(** When every one of the draws left is taken, the loop leaves with the
    budget used up. *)
Lemma uid_loop_exhausts (n : nat) :
  forall fuel a u,
    (a + n = maxAttempts)%nat ->
    (n <= fuel)%nat ->
    (forall j, (a <= j < maxAttempts)%nat -> taken (candidate rnd j) = true) ->
    attempts (uid_loop rnd taken fuel {| uid := u; exists_ := true; attempts := a |})
    = maxAttempts.
Proof.
  induction n as [| n IH]; intros fuel a u Hbound Hfuel Htaken.
  - rewrite uid_loop_exit; [cbn [attempts]; lia |].
    unfold uid_loop_cond. cbn [exists_ attempts andb].
    apply Nat.ltb_ge. lia.
  - destruct fuel as [| fuel]; [lia |].
    cbn [uid_loop]. unfold uid_loop_cond at 1.
    cbn [exists_ attempts andb].
    destruct (Nat.ltb_spec a maxAttempts) as [_ | Hge]; [| lia].
    unfold uid_loop_body. cbn [attempts].
    rewrite (Htaken a) by lia.
    apply IH; [lia | lia |].
    intros j Hj. apply Htaken. lia.
Qed.

(** What the function does when a candidate among the first 99 draws is free:
    it returns the first such candidate. *)
Lemma generateUniqueUID_first_free (k : nat) :
  (k < 99)%nat ->
  (forall j, (j < k)%nat -> taken (candidate rnd j) = true) ->
  taken (candidate rnd k) = false ->
  generateUniqueUID rnd taken = Return (Some (candidate rnd k)).
Proof.
  intros Hk Hbefore Hfree. unfold generateUniqueUID, uid_init.
  rewrite (uid_loop_finds k maxAttempts 0 None); unfold maxAttempts;
    try lia; try assumption.
  - cbn [attempts uid Nat.add].
    destruct (Nat.leb_spec 100 (S k)) as [Hle | _]; [lia | reflexivity].
  - intros j Hj. apply Hbefore. lia.
Qed.

(** What the function does when the first 99 candidates are all taken: it
    throws, whatever the 100th existence check answers. *)
Lemma generateUniqueUID_throws :
  (forall j, (j < 99)%nat -> taken (candidate rnd j) = true) ->
  generateUniqueUID rnd taken = Throw "Failed to generate unique UID"%string.
Proof.
  intros Htaken. unfold generateUniqueUID, uid_init.
  destruct (taken (candidate rnd 99)) eqn:H99.
  - rewrite (uid_loop_exhausts maxAttempts maxAttempts 0 None);
      [reflexivity | reflexivity | lia |].
    intros j Hj. unfold maxAttempts in Hj.
    destruct (Nat.eq_dec j 99) as [-> | Hne]; [exact H99 | apply Htaken; lia].
  - rewrite (uid_loop_finds 99 maxAttempts 0 None); unfold maxAttempts;
      try lia; try assumption; [reflexivity |].
    intros j Hj. apply Htaken. lia.
Qed.

(** Every value returned is a candidate that was drawn and found free. *)
Lemma generateUniqueUID_returned (r : option string) :
  generateUniqueUID rnd taken = Return r ->
  exists k, (k < 99)%nat /\ r = Some (candidate rnd k) /\ taken (candidate rnd k) = false /\
            forall j, (j < k)%nat -> taken (candidate rnd j) = true.
Proof.
  intros Hret.
  destruct (first_false (fun j => taken (candidate rnd j)) 99)
    as [Hall | (k & Hk & Hfree & Hbefore)].
  - rewrite (generateUniqueUID_throws Hall) in Hret. discriminate.
  - rewrite (generateUniqueUID_first_free k Hk Hbefore Hfree) in Hret.
    inversion Hret. exists k. repeat split; assumption.
Qed.

End UidAllocation.

(** ** Claims on [generateUniqueUID] *)

(** C1 (the code departs from it).  The claim: the function returns the first
    drawn candidate that does not exist yet whenever that draw is among the
    first 100 attempts, and fails only when none of the 100 is free.  On the
    code, with draws 1000000, 1000001, ... and a table in which exactly
    "1000099" is free, the first 99 candidates are taken, the 100th draw is
    "1000099" and is free, and yet the call throws "Failed to generate unique
    UID": the test [attempts >= maxAttempts] after the loop also fires when
    the loop left because the 100th candidate was free. *)
Theorem generateUniqueUID_rejects_free_100th_draw :
  (forall j, (j < 99)%nat ->
     Scenario.all_taken_but_1000099
       (candidate Scenario.counting_random j) = true) /\
  candidate Scenario.counting_random 99 = "1000099"%string /\
  Scenario.all_taken_but_1000099 "1000099" = false /\
  generateUniqueUID Scenario.counting_random Scenario.all_taken_but_1000099
  = Throw "Failed to generate unique UID"%string.
Proof.
  split; [| repeat split; vm_compute; reflexivity].
  assert (Hall : forallb
            (fun j => Scenario.all_taken_but_1000099
                        (candidate Scenario.counting_random j))
            (seq 0 99) = true) by (vm_compute; reflexivity).
  rewrite forallb_forall in Hall.
  intros j Hj. apply Hall, in_seq. lia.
Qed.

(** C2.  Whatever the random source (with values in [[0, 1)], as
    [Math.random] has them) and whatever the existence check, a UID that
    [generateUniqueUID] returns matches [^[0-9]{7}$] and its numeric value
    lies between 1000000 and 9999999. *)
Theorem generateUniqueUID_format
  (rnd : nat -> Q) (taken : string -> bool) (r : option string) :
  (forall k, (0 <= rnd k)%Q /\ (rnd k < 1)%Q) ->
  generateUniqueUID rnd taken = Return r ->
  exists u, r = Some u /\
            test_7_digits u = true /\
            1000000 <= decimal_value u <= 9999999.
Proof.
  intros Hrange Hret.
  destruct (generateUniqueUID_returned rnd taken r Hret)
    as (k & _ & -> & _ & _).
  destruct (Hrange k) as [Hlo Hhi].
  pose proof (draw_range (rnd k) Hlo Hhi) as Hdraw.
  exists (candidate rnd k). unfold candidate.
  split; [reflexivity |]. split.
  - now apply String_of_Z_7_digits.
  - rewrite String_of_Z_value by lia. exact Hdraw.
Qed.

Lemma generateUniqueUID_format_witness :
  exists u, Some "5500000"%string = Some u /\
            test_7_digits u = true /\
            1000000 <= decimal_value u <= 9999999.
Proof.
  apply (generateUniqueUID_format Scenario.constant_half Scenario.none_taken).
  - intros k. split; [discriminate | reflexivity].
  - vm_compute. reflexivity.
Defined.

(** ** [updateUserUID] *)

Lemma primary_key (db : users_table) (r1 r2 : user_row) :
  NoDup (map id db) -> In r1 db -> In r2 db -> id r1 = id r2 -> r1 = r2.
Proof.
  induction db as [| r db IH]; intros Hnd H1 H2 Hid; [contradiction |].
  cbn [map] in Hnd. inversion Hnd as [| ? ? Hnotin Hnd']; subst.
  destruct H1 as [-> | H1], H2 as [-> | H2].
  - reflexivity.
  - exfalso. apply Hnotin. rewrite Hid. now apply in_map.
  - exfalso. apply Hnotin. rewrite <- Hid. now apply in_map.
  - now apply IH.
Qed.

Lemma uid_is_true (u : string) (r : user_row) :
  uid_is u r = true <-> row_uid r = Some u.
Proof.
  unfold uid_is. destruct (row_uid r) as [v |].
  - rewrite String.eqb_eq. split; congruence.
  - split; discriminate.
Qed.

(** With the [UNIQUE] key, the active holder of a uid is the row that
    [getUserByUID] returns. *)
Lemma getUserByUID_holder (db : users_table) (u : string) (r : user_row) :
  users_table_ok db ->
  In r db -> deleted r = false -> row_uid r = Some u ->
  getUserByUID db u = Some r.
Proof.
  intros [_ Huniq] Hin Hactive Huid. unfold getUserByUID.
  destruct (find _ db) as [r' |] eqn:Hfind.
  - apply find_some in Hfind. destruct Hfind as [Hin' Hp].
    apply andb_true_iff in Hp. destruct Hp as [Hp _].
    apply uid_is_true in Hp.
    f_equal. exact (Huniq r' r u Hin' Hin Hp Huid).
  - apply (find_none _ _ Hfind) in Hin.
    rewrite (proj2 (uid_is_true u r) Huid), Hactive in Hin. discriminate.
Qed.

Lemma getUserById_holder (db : users_table) (r : user_row) :
  users_table_ok db ->
  In r db -> deleted r = false ->
  getUserById db (id r) = Some r.
Proof.
  intros [Hpk _] Hin Hactive. unfold getUserById.
  destruct (find _ db) as [r' |] eqn:Hfind.
  - apply find_some in Hfind. destruct Hfind as [Hin' Hp].
    apply andb_true_iff in Hp. destruct Hp as [Hp _].
    apply Z.eqb_eq in Hp.
    f_equal. exact (primary_key db r' r Hpk Hin' Hin Hp).
  - apply (find_none _ _ Hfind) in Hin.
    rewrite Z.eqb_refl, Hactive in Hin. discriminate.
Qed.

(** Writing to a row the uid it already has changes nothing and meets no
    duplicate. *)
Lemma update_uid_own (db : users_table) (r : user_row) (u : string) :
  users_table_ok db ->
  In r db -> deleted r = false -> row_uid r = Some u ->
  update_uid db u (id r) = Return db.
Proof.
  intros [Hpk Huniq] Hin Hactive Huid. unfold update_uid.
  assert (Htarget : forall r', In r' db ->
                               update_target (id r) r' = true -> r' = r).
  { intros r' Hin' Ht. unfold update_target in Ht.
    apply andb_true_iff in Ht. destruct Ht as [Ht _].
    apply Z.eqb_eq in Ht. exact (primary_key db r' r Hpk Hin' Hin Ht). }
  assert (Hnodup : existsb
            (fun r' => uid_is u r' && negb (update_target (id r) r')) db
            = false).
  { destruct (existsb _ db) eqn:Hex; [| reflexivity].
    apply existsb_exists in Hex. destruct Hex as (r' & Hin' & Hp).
    apply andb_true_iff in Hp. destruct Hp as [Hu Hnt].
    apply uid_is_true in Hu.
    rewrite (Huniq r' r u Hin' Hin Hu Huid) in Hnt.
    unfold update_target in Hnt.
    rewrite Z.eqb_refl, Hactive in Hnt. discriminate. }
  rewrite Hnodup, andb_false_r. f_equal.
  rewrite <- (map_id db) at 2. apply map_ext_in.
  intros r' Hin'. destruct (update_target (id r) r') eqn:Ht; [| reflexivity].
  rewrite (Htarget r' Hin' Ht). rewrite <- Huid. now destruct r.
Qed.

(** C9.  In a [users] table that satisfies its keys, [updateUserUID] throws
    the validation error for every new UID that does not match [^\d{7}$];
    for a new UID of that format it throws "UID already exists" when the
    active row that holds it belongs to another user, and when that row is the
    caller's own the call succeeds: the table is unchanged and the caller's
    row is returned. *)
Theorem updateUserUID_checks
  (db : users_table) (userId : Z) (newUID : string) :
  users_table_ok db ->
  (test_7_digits newUID = false ->
   updateUserUID db userId newUID
   = Throw "UID must be exactly 7 digits"%string) /\
  (test_7_digits newUID = true ->
   forall r, In r db -> deleted r = false -> row_uid r = Some newUID ->
     (id r <> userId ->
      updateUserUID db userId newUID = Throw "UID already exists"%string) /\
     (id r = userId ->
      updateUserUID db userId newUID = Return (db, Some r))).
Proof.
  intros Hok. split.
  - intros Hfmt. unfold updateUserUID. now rewrite Hfmt.
  - intros Hfmt r Hin Hactive Huid. unfold updateUserUID.
    rewrite Hfmt. cbn [negb].
    rewrite (getUserByUID_holder db newUID r Hok Hin Hactive Huid).
    split.
    + intros Hother. destruct (Z.eqb_spec (id r) userId) as [Heq | _];
        [contradiction | reflexivity].
    + intros <-. rewrite Z.eqb_refl. cbn [negb].
      rewrite (update_uid_own db r newUID Hok Hin Hactive Huid).
      cbn [bind].
      now rewrite (getUserById_holder db r Hok Hin Hactive).
Qed.

Lemma two_users_ok : users_table_ok Scenario.two_users.
Proof.
  split.
  - cbn. repeat constructor; cbn; intuition discriminate.
  - intros r1 r2 u [<- | [<- | []]] [<- | [<- | []]]; cbn; congruence.
Defined.

Lemma updateUserUID_checks_witness :
  updateUserUID Scenario.two_users 1 "12345"
  = Throw "UID must be exactly 7 digits"%string /\
  updateUserUID Scenario.two_users 1 "7654321"
  = Throw "UID already exists"%string /\
  updateUserUID Scenario.two_users 1 "1234567"
  = Return (Scenario.two_users, Some Scenario.alice).
Proof.
  split; [| split].
  - apply (updateUserUID_checks Scenario.two_users 1 "12345" two_users_ok).
    reflexivity.
  - apply (proj2 (updateUserUID_checks Scenario.two_users 1 "7654321"
                    two_users_ok) eq_refl Scenario.bob);
      [right; left; reflexivity | reflexivity | reflexivity | discriminate].
  - apply (proj2 (updateUserUID_checks Scenario.two_users 1 "1234567"
                    two_users_ok) eq_refl Scenario.alice);
      [left; reflexivity | reflexivity | reflexivity | reflexivity].
Defined.

(** ** Sorting by time *)

Lemma sort_insert_perm {A} (compareFn : A -> A -> Z) (x : A) (l : list A) :
  Permutation (sort_insert compareFn x l) (x :: l).
Proof.
  induction l as [| y l IH]; cbn [sort_insert]; [reflexivity |].
  destruct (compareFn x y <=? 0); [reflexivity |].
  rewrite IH. apply perm_swap.
Qed.

Lemma Array_sort_perm {A} (compareFn : A -> A -> Z) (l : list A) :
  Permutation (Array_sort compareFn l) l.
Proof.
  induction l as [| x l IH]; cbn [Array_sort]; [reflexivity |].
  rewrite sort_insert_perm. now apply perm_skip.
Qed.

Lemma sort_insert_sorted (x : Candle) (l : list Candle) :
  StronglySorted time_le l ->
  StronglySorted time_le (sort_insert by_time x l).
Proof.
  induction l as [| y l IH]; intros Hs; cbn [sort_insert].
  - repeat constructor.
  - apply StronglySorted_inv in Hs. destruct Hs as [Hl Hy].
    unfold by_time at 1.
    destruct (Z.leb_spec (time x - time y) 0) as [Hle | Hgt].
    + constructor; [now constructor |].
      constructor; [unfold time_le; lia |].
      eapply Forall_impl; [| exact Hy].
      unfold time_le. intros z Hz. lia.
    + constructor; [now apply IH |].
      eapply Permutation_Forall;
        [symmetry; apply sort_insert_perm |].
      constructor; [unfold time_le; lia | exact Hy].
Qed.

Lemma Array_sort_sorted (l : list Candle) :
  StronglySorted time_le (Array_sort by_time l).
Proof.
  induction l as [| x l IH]; cbn [Array_sort]; [constructor |].
  now apply sort_insert_sorted.
Qed.

(** Sorting a list that is in order already returns it as it is. *)
Lemma Array_sort_fixpoint (l : list Candle) :
  StronglySorted time_le l -> Array_sort by_time l = l.
Proof.
  induction l as [| x l IH]; intros Hs; [reflexivity |].
  apply StronglySorted_inv in Hs. destruct Hs as [Hl Hx].
  cbn [Array_sort]. rewrite (IH Hl).
  destruct l as [| y l]; [reflexivity |].
  cbn [sort_insert]. unfold by_time.
  apply Forall_inv in Hx. unfold time_le in Hx.
  destruct (Z.leb_spec (time x - time y) 0) as [_ | Hgt]; [reflexivity | lia].
Qed.

(** ** The chart loop *)

Lemma Qlt_bool_iff (x y : Q) : Qlt_bool x y = true <-> (x < y)%Q.
Proof. unfold Qlt_bool, Qlt. apply Z.ltb_lt. Qed.

Lemma all_positive_iff (o h l c : Q) :
  all_positive o h l c = true <-> (0 < o /\ 0 < h /\ 0 < l /\ 0 < c)%Q.
Proof.
  unfold all_positive. rewrite !andb_true_iff, !Qlt_bool_iff. tauto.
Qed.

(** A price slot that is missing, [null] or zero reads as [0]. *)
Lemma cell_missing (arr : list jnum) (i : nat) :
  index arr i = None -> cell arr i = 0%Q.
Proof. unfold cell. now intros ->. Qed.

Section ChartLoop.

Variables o h l c v : list jnum.

(** The first quote entry, with all of its arrays present. *)
Local Notation "'the_quote'" :=
  {| quote_open := Some o; quote_high := Some h; quote_low := Some l;
     quote_close := Some c; quote_volume := Some v |}.

(** The loop appends, in index order, the candles of the rows whose four
    prices are positive. *)
Lemma chart_loop_rows (rest : list jnum) :
  forall pre candles,
    chart_loop the_quote rest (List.length pre) candles
    = Return (candles ++ map (row_candle (pre ++ rest) o h l c v)
                           (filter (row_kept o h l c)
                              (seq (List.length pre) (List.length rest)))).
Proof.
  induction rest as [| t rest IH]; intros pre candles.
  - cbn. now rewrite app_nil_r.
  - cbn [chart_loop chart_row price_at access bind quote_open quote_high
           quote_low quote_close quote_volume List.length seq filter].
    fold (row_kept o h l c (List.length pre)).
    specialize (IH (pre ++ [t])).
    rewrite length_app, Nat.add_1_r, <- app_assoc in IH. cbn [app] in IH.
    rewrite IH.
    assert (Ht : index (pre ++ t :: rest) (List.length pre) = t).
    { unfold index. rewrite nth_error_app2, Nat.sub_diag by lia.
      reflexivity. }
    destruct (row_kept o h l c (List.length pre)); [| reflexivity].
    cbn [map]. rewrite <- app_assoc. cbn [app].
    unfold row_candle at 2. now rewrite Ht.
Qed.

Lemma chart_loop_from_start (ts : list jnum) :
  chart_loop the_quote ts 0 []
  = Return (map (row_candle ts o h l c v)
              (filter (row_kept o h l c) (seq 0 (List.length ts)))).
Proof. exact (chart_loop_rows ts [] []). Qed.

End ChartLoop.

(** ** Claims on [GET /stock/chart/:symbol] *)

(** What the handler answers on a payload that carries all the arrays. *)
Lemma stock_chart_arrays (f : fetch_outcome) (ts o h l c v : list jnum) :
  carries_arrays f ts o h l c v ->
  stock_chart f
  = match o with
    | [] => Reply404 "No quote data found"%string
    | _ :: _ =>
        Reply200
          (Array_sort by_time
             (map (row_candle ts o h l c v)
                (filter (row_kept o h l c) (seq 0 (List.length ts)))))
    end.
Proof.
  intros (response & data & r & ind & quotes & -> & Hok & Hjson & Hres
          & Hts & Hind & Hquote).
  unfold stock_chart, fetch_json.
  rewrite Hok, Hjson. cbn [negb bind]. rewrite Hres, Hts, Hind.
  cbn [access bind]. rewrite Hquote. cbn [bind no_quote_data quote_open].
  destruct o as [| o0 o']; [reflexivity |].
  cbn [access bind].
  rewrite (chart_loop_from_start (o0 :: o') h l c v ts).
  reflexivity.
Qed.

(** Whatever the handler returns with status 200 went through the sort. *)
Lemma stock_chart_sorts (f : fetch_outcome) (candles : list Candle) :
  stock_chart f = Reply200 candles ->
  exists rows, candles = Array_sort by_time rows.
Proof.
  unfold stock_chart, fetch_json. intros H.
  destruct f as [| response]; [discriminate |].
  destruct (ok response); [| discriminate].
  destruct (json response) as [data |]; [| discriminate].
  cbn [negb bind] in H.
  destruct (first_result data) as [r |]; [| discriminate].
  destruct (indicators r) as [ind |]; [| discriminate].
  cbn [access bind] in H.
  destruct (quote ind) as [quotes |]; [| discriminate].
  cbn [access bind] in H.
  destruct (no_quote_data _); [discriminate |].
  destruct (match quotes with [] => None | q :: _ => q end) as [q |];
    [| discriminate].
  cbn [access bind] in H.
  destruct (chart_loop q _ 0%nat []) as [rows |]; [| discriminate].
  cbn [bind try_catch] in H. inversion H. now exists rows.
Qed.

(** C3.  On a payload with the parallel arrays [ts], [o], [h], [l], [c], [v]
    the candles returned are, up to order, the candles of the rows [i] whose
    open, high, low and close are all strictly positive, one candle for each
    such row and none for any other; a row with a missing or [null] price is
    not among them.  On the example rows (prices of the second row zero) the
    handler returns exactly the candles of rows 0 and 2. *)
Theorem stock_chart_keeps_positive_rows :
  (forall f ts o h l c v candles,
      carries_arrays f ts o h l c v ->
      stock_chart f = Reply200 candles ->
      exists kept : list nat,
        NoDup kept /\
        (forall i, In i kept <->
                   (i < List.length ts)%nat /\
                   (0 < cell o i /\ 0 < cell h i /\
                    0 < cell l i /\ 0 < cell c i)%Q) /\
        (forall i, index o i = None \/ index h i = None \/
                   index l i = None \/ index c i = None ->
                   ~ In i kept) /\
        Permutation candles (map (row_candle ts o h l c v) kept)) /\
  stock_chart Scenario.three_rows = Reply200 Scenario.first_and_third.
Proof.
  split; [| vm_compute; reflexivity].
  intros f ts o h l c v candles Harr Hreply.
  rewrite (stock_chart_arrays f ts o h l c v Harr) in Hreply.
  destruct o as [| o0 o']; [discriminate |].
  inversion Hreply as [Hcandles]. clear Hreply Hcandles.
  set (o := o0 :: o').
  assert (Hkept : forall i,
             In i (filter (row_kept o h l c) (seq 0 (List.length ts))) <->
             (i < List.length ts)%nat /\
             (0 < cell o i /\ 0 < cell h i /\
              0 < cell l i /\ 0 < cell c i)%Q).
  { intros i. rewrite filter_In, in_seq. unfold row_kept.
    rewrite all_positive_iff. intuition lia. }
  exists (filter (row_kept o h l c) (seq 0 (List.length ts))).
  split; [apply NoDup_filter, seq_NoDup |].
  split; [exact Hkept |].
  split; [| apply Array_sort_perm].
  intros i Hmissing Hin. apply Hkept in Hin.
  destruct Hin as (_ & Ho & Hh & Hl & Hc).
  destruct Hmissing as [Hm | [Hm | [Hm | Hm]]];
    apply cell_missing in Hm; rewrite Hm in *; discriminate.
Qed.

Lemma stock_chart_keeps_positive_rows_witness :
  exists kept : list nat,
    NoDup kept /\
    (forall i, In i kept <->
               (i < List.length Scenario.timestamps3)%nat /\
               (0 < cell Scenario.open3 i /\ 0 < cell Scenario.high3 i /\
                0 < cell Scenario.low3 i /\ 0 < cell Scenario.close3 i)%Q) /\
    (forall i, index Scenario.open3 i = None \/
               index Scenario.high3 i = None \/
               index Scenario.low3 i = None \/
               index Scenario.close3 i = None ->
               ~ In i kept) /\
    Permutation Scenario.first_and_third
      (map (row_candle Scenario.timestamps3 Scenario.open3 Scenario.high3
              Scenario.low3 Scenario.close3 Scenario.volume3) kept).
Proof.
  apply (proj1 stock_chart_keeps_positive_rows Scenario.three_rows
           Scenario.timestamps3 Scenario.open3 Scenario.high3
           Scenario.low3 Scenario.close3 Scenario.volume3
           Scenario.first_and_third).
  - unfold carries_arrays, Scenario.three_rows, Scenario.chart_response.
    eexists _, _, _, _, _.
    repeat split; reflexivity.
  - vm_compute. reflexivity.
Defined.

(** C4.  Whatever the upstream payload and the order of its rows, the candle
    list the handler returns is in ascending order of time, and sorting it by
    time once more returns the same list. *)
Theorem stock_chart_sorted (f : fetch_outcome) (candles : list Candle) :
  stock_chart f = Reply200 candles ->
  StronglySorted time_le candles /\ Array_sort by_time candles = candles.
Proof.
  intros Hreply.
  destruct (stock_chart_sorts f candles Hreply) as [rows ->].
  split; [apply Array_sort_sorted |].
  apply Array_sort_fixpoint, Array_sort_sorted.
Qed.

Lemma stock_chart_sorted_witness :
  StronglySorted time_le Scenario.earliest_first /\
  Array_sort by_time Scenario.earliest_first = Scenario.earliest_first.
Proof.
  apply (stock_chart_sorted Scenario.reversed_rows).
  vm_compute. reflexivity.
Defined.

(** On an integer timestamp the loop divides by 1000 above 10^12 and keeps
    the value otherwise. *)
Lemma candle_time_integer (t : Z) :
  candle_time (Some (inject_Z t))
  = if 1000000000000 <? t then t / 1000 else t.
Proof.
  unfold candle_time, to_number, Qlt_bool.
  cbn [Qnum Qden inject_Z]. rewrite !Z.mul_1_r.
  destruct (1000000000000 <? t).
  - symmetry. apply (Zdiv_Qdiv t 1000).
  - apply Qfloor_Z.
Qed.

Lemma candle_time_examples :
  candle_time (Some 1700000000000%Q) = 1700000000 /\
  candle_time (Some 1700000000%Q) = 1700000000.
Proof. split; reflexivity. Qed.

(** C5 (the code departs from it).  The claim: a timestamp [t >= 10^12] is
    read as milliseconds and the candle time is [floor(t/1000)].  On the code
    the test is [timestamp > 1e12]: the timestamp 1000000000000, the smallest
    13-digit number, which the comments of the loop count among the
    millisecond values, is kept as it is, and the row comes out with time
    1000000000000 where the claim has 1000000000. *)
Theorem candle_time_at_1e12 :
  candle_time (Some (inject_Z 1000000000000)) = 1000000000000 /\
  1000000000000 / 1000 = 1000000000 /\
  stock_chart Scenario.row_at_1e12
  = Reply200 [ {| time := 1000000000000; open := 1; high := 1; low := 1;
                  close := 1; volume := 1 |} ].
Proof. repeat split; vm_compute; reflexivity. Qed.

(** The claim of C6 fails on an upstream answer with status 503: the handler
    replies 500, not 404. *)
Lemma stock_chart_unavailable_not_404 :
  ok Scenario.unavailable = false /\
  stock_chart (Fetched Scenario.unavailable) = Reply500 (HttpError 503) /\
  http_error_message 503 = "HTTP error! status: 503"%string /\
  (forall error, stock_chart (Fetched Scenario.unavailable) <> Reply404 error).
Proof. repeat split. intros error. discriminate. Qed.

(** C6, amended.  When the upstream answer has a success status and its
    payload has no [chart], no [chart.result] or an empty [result] array, the
    reply is 404 "No data found"; when the [quote] array of the first result
    is empty, or its first entry is [null], or that entry has no [open] array
    or an empty one, the reply is 404 "No quote data found".  When the
    upstream answer has a non-success status the reply is 500 and carries the
    error "HTTP error! status: <status>". *)
Theorem stock_chart_failures (response : Response) :
  (ok response = false ->
   stock_chart (Fetched response) = Reply500 (HttpError (status response))) /\
  (ok response = true ->
   forall data, json response = Some data ->
     ((chart data = None \/
       exists ch, chart data = Some ch /\
                  (result ch = None \/ result ch = Some [])) ->
      stock_chart (Fetched response) = Reply404 "No data found"%string) /\
     (forall r ind quotes,
         first_result data = Some r ->
         indicators r = Some ind -> quote ind = Some quotes ->
         (quotes = [] \/
          (exists rest, quotes = None :: rest) \/
          (exists q rest, quotes = Some q :: rest /\
                          (quote_open q = None \/ quote_open q = Some []))) ->
         stock_chart (Fetched response)
         = Reply404 "No quote data found"%string)).
Proof.
  split.
  - intros Hok. unfold stock_chart, fetch_json. now rewrite Hok.
  - intros Hok data Hjson. unfold stock_chart, fetch_json.
    rewrite Hok, Hjson. cbn [negb bind]. split.
    + intros Habsent.
      assert (Hnone : first_result data = None).
      { unfold first_result.
        destruct Habsent as [-> | (ch & -> & [-> | ->])]; reflexivity. }
      now rewrite Hnone.
    + intros r ind quotes Hres Hind Hquote Hempty.
      rewrite Hres, Hind. cbn [access bind]. rewrite Hquote.
      cbn [access bind].
      destruct Hempty as [-> | [(rest & ->) | (q & rest & -> & [Ho | Ho])]];
        cbn [no_quote_data]; try rewrite Ho; reflexivity.
Qed.

Lemma stock_chart_failures_witness :
  stock_chart (Fetched Scenario.unavailable) = Reply500 (HttpError 503) /\
  stock_chart (Fetched Scenario.empty_result)
  = Reply404 "No data found"%string /\
  stock_chart (Fetched Scenario.empty_open)
  = Reply404 "No quote data found"%string.
Proof.
  split; [| split].
  - apply (proj1 (stock_chart_failures Scenario.unavailable)). reflexivity.
  - apply (proj2 (stock_chart_failures Scenario.empty_result) eq_refl
             _ eq_refl).
    right. eexists. split; [reflexivity | right; reflexivity].
  - eapply (proj2 (stock_chart_failures Scenario.empty_open) eq_refl
              _ eq_refl); try reflexivity.
    right. right. eexists _, _. split; [reflexivity | right; reflexivity].
Defined.

(** ** Claims on [GET /futures/chart/:symbol] *)

Lemma append_length (s t : string) :
  String.length (s ++ t) = (String.length s + String.length t)%nat.
Proof.
  induction s as [| a s IH]; cbn [String.append String.length];
    [reflexivity | now rewrite IH].
Qed.

Lemma includes_In (l : list string) (s : string) :
  includes l s = true <-> In s l.
Proof.
  unfold includes. rewrite existsb_exists. split.
  - intros (x & Hin & Heq). apply String.eqb_eq in Heq. now subst.
  - intros Hin. exists s. split; [exact Hin | apply String.eqb_refl].
Qed.

(** C7.  The symbol the futures handler queries upstream is the requested
    symbol followed by "USDT" exactly when the requested symbol is one of
    BTC, ETH, XRP, BNB, SOL, ADA, DOGE, DOT, and the requested symbol itself
    otherwise; "BTC" is queried as "BTCUSDT" and "AAPL" as "AAPL". *)
Theorem futuresSymbol_remap (symbol : string) :
  let known :=
    ["BTC"; "ETH"; "XRP"; "BNB"; "SOL"; "ADA"; "DOGE"; "DOT"]%string in
  (futuresSymbol symbol = (symbol ++ "USDT")%string <-> In symbol known) /\
  (~ In symbol known -> futuresSymbol symbol = symbol) /\
  (forall interval limit,
      futures_url symbol interval limit
      = ("https://fapi.binance.com/fapi/v1/klines?symbol="
         ++ futuresSymbol symbol
         ++ "&interval=" ++ binanceInterval interval
         ++ "&limit=" ++ limit)%string) /\
  futuresSymbol "BTC" = "BTCUSDT"%string /\
  futuresSymbol "AAPL" = "AAPL"%string /\
  futures_url "BTC" "1m" "500"
  = "https://fapi.binance.com/fapi/v1/klines?symbol=BTCUSDT&interval=1m&limit=500"%string /\
  futures_url "AAPL" "1m" "500"
  = "https://fapi.binance.com/fapi/v1/klines?symbol=AAPL&interval=1m&limit=500"%string.
Proof.
  intros known.
  assert (Hin : includes cryptoFutures symbol = true <-> In symbol known)
    by apply includes_In.
  repeat split; try reflexivity.
  - unfold futuresSymbol. intros Heq.
    destruct (includes cryptoFutures symbol); [now apply Hin |].
    apply (f_equal String.length) in Heq.
    rewrite append_length in Heq. cbn in Heq. lia.
  - intros Hknown. unfold futuresSymbol.
    apply Hin in Hknown. now rewrite Hknown.
  - intros Hunknown. unfold futuresSymbol.
    destruct (includes cryptoFutures symbol); [| reflexivity].
    exfalso. now apply Hunknown, Hin.
Qed.

Lemma futuresSymbol_remap_witness :
  futuresSymbol "ETH" = "ETHUSDT"%string /\
  futuresSymbol "MSFT" = "MSFT"%string.
Proof.
  split.
  - apply (proj2 (proj1 (futuresSymbol_remap "ETH"))).
    right. left. reflexivity.
  - apply (proj1 (proj2 (futuresSymbol_remap "MSFT"))).
    cbn. intuition discriminate.
Defined.

(** ** Claims on [GET /stock/price/:symbol] *)

(** A 200 reply of the price handler is the snapshot of the metadata of the
    first result, with the market time that the handler could print. *)
Lemma stock_price_reply200 (f : fetch_outcome) (now : Q) (s : Snapshot) :
  stock_price f now = Reply200 s ->
  exists response data r m t,
    f = Fetched response /\ ok response = true /\
    json response = Some data /\ first_result data = Some r /\
    meta r = Some m /\ market_time_string m now = Return t /\
    s = snapshot m t.
Proof.
  unfold stock_price, fetch_json. intros H.
  destruct f as [| response]; [discriminate |].
  destruct (ok response) eqn:Hok; [| discriminate].
  destruct (json response) as [data |] eqn:Hjson; [| discriminate].
  cbn [negb bind] in H.
  destruct (first_result data) as [r |] eqn:Hres; [| discriminate].
  destruct (meta r) as [m |] eqn:Hmeta; [| discriminate].
  cbn [access bind] in H.
  destruct (market_time_string m now) as [t |] eqn:Htime; [| discriminate].
  cbn [bind try_catch] in H. inversion H.
  exists response, data, r, m, t. repeat split; assumption.
Qed.

Lemma snapshot_change (m : Meta) (now : Q) :
  let s := snapshot m now in
  let previous := resolved_previousClose m in
  price s = resolved_price m /\
  priceChange s = (price s - previous)%Q /\
  ((0 < previous)%Q ->
   priceChangePercent s = (priceChange s / previous * 100)%Q) /\
  ((previous <= 0)%Q -> priceChangePercent s = 0%Q).
Proof.
  cbn zeta. unfold snapshot. cbn [price priceChange priceChangePercent].
  repeat split.
  - intros Hpos. apply Qlt_bool_iff in Hpos. now rewrite Hpos.
  - intros Hle.
    destruct (Qlt_bool 0 (resolved_previousClose m)) eqn:Hlt;
      [| reflexivity].
    apply Qlt_bool_iff in Hlt. exfalso. exact (Qle_not_lt _ _ Hle Hlt).
Qed.

(** C8.  In every snapshot the price handler returns, the change is the price
    minus the previous close, and the change percentage is the change divided
    by the previous close, times 100, when the previous close is positive,
    and 0 when it is not.  With price 110 and previous close 100 the change
    is 10 and the percentage 10; a previous close of zero or below gives the
    percentage 0. *)
Theorem stock_price_change :
  (forall f now s,
      stock_price f now = Reply200 s ->
      exists response data r m,
        f = Fetched response /\ json response = Some data /\
        first_result data = Some r /\ meta r = Some m /\
        let previous := resolved_previousClose m in
        price s = resolved_price m /\
        priceChange s = (price s - previous)%Q /\
        ((0 < previous)%Q ->
         priceChangePercent s = (priceChange s / previous * 100)%Q) /\
        ((previous <= 0)%Q -> priceChangePercent s = 0%Q)) /\
  (forall now,
      let m := Scenario.meta_of (Some 110%Q) (Some 100%Q) in
      resolved_price m = 110%Q /\ resolved_previousClose m = 100%Q /\
      (priceChange (snapshot m now) == 10)%Q /\
      (priceChangePercent (snapshot m now) == 10)%Q) /\
  (forall now,
      let m := Scenario.meta_of None (Some 0%Q) in
      resolved_previousClose m = 0%Q /\
      priceChangePercent (snapshot m now) = 0%Q) /\
  (forall now,
      let m := Scenario.meta_of (Some 110%Q) (Some (-100)%Q) in
      resolved_previousClose m = (-100)%Q /\
      priceChangePercent (snapshot m now) = 0%Q).
Proof.
  split; [| repeat split; reflexivity].
  intros f now s Hreply.
  destruct (stock_price_reply200 f now s Hreply)
    as (response & data & r & m & t & -> & _ & Hjson & Hres & Hmeta & _ & ->).
  exists response, data, r, m.
  repeat (split; [reflexivity || assumption |]).
  apply snapshot_change.
Qed.

Lemma stock_price_change_witness :
  exists response data r m,
    Scenario.price_response (Scenario.meta_of (Some 110%Q) (Some 100%Q))
    = Fetched response /\ json response = Some data /\
    first_result data = Some r /\ meta r = Some m /\
    let previous := resolved_previousClose m in
    let s := snapshot (Scenario.meta_of (Some 110%Q) (Some 100%Q)) 0 in
    price s = resolved_price m /\
    priceChange s = (price s - previous)%Q /\
    ((0 < previous)%Q ->
     priceChangePercent s = (priceChange s / previous * 100)%Q) /\
    ((previous <= 0)%Q -> priceChangePercent s = 0%Q).
Proof.
  apply (proj1 stock_price_change
           (Scenario.price_response
              (Scenario.meta_of (Some 110%Q) (Some 100%Q))) 0%Q).
  reflexivity.
Defined.

Lemma Qle_bool_abs_iff (x bound : Q) :
  Qle_bool (Qabs x) bound = true <-> (Qabs x <= bound)%Q.
Proof. apply Qle_bool_iff. Qed.

(** When the market time can be printed, the handler prints it. *)
Lemma market_time_string_returns (m : Meta) (now : Q) :
  (forall t, regularMarketTime m = Some t ->
             (Qabs (t * 1000) <= 8640000000000000)%Q) ->
  exists iso, market_time_string m now = Return iso.
Proof.
  intros Hrange. unfold market_time_string, market_date.
  destruct (regularMarketTime m) as [t |]; [| now exists now].
  destruct (Qeq_bool t 0); [now exists now |].
  unfold new_Date.
  rewrite (proj2 (Qle_bool_abs_iff (t * 1000) _) (Hrange t eq_refl)).
  cbn [toISOString]. eexists. reflexivity.
Qed.

(** A market time beyond the range of dates makes [toISOString] throw. *)
Lemma market_time_string_throws (m : Meta) (now : Q) (t : Q) :
  regularMarketTime m = Some t ->
  (8640000000000000 < Qabs (t * 1000))%Q ->
  market_time_string m now = Throw RangeError.
Proof.
  intros Ht Hout. unfold market_time_string, market_date. rewrite Ht.
  destruct (Qeq_bool t 0) eqn:Hzero.
  - apply Qeq_bool_iff in Hzero. rewrite Hzero in Hout. discriminate.
  - unfold new_Date.
    destruct (Qle_bool (Qabs (t * 1000)) 8640000000000000) eqn:Hle;
      [| reflexivity].
    apply Qle_bool_iff in Hle. exfalso. exact (Qle_not_lt _ _ Hle Hout).
Qed.

(** C10.  When the metadata of the first result has no [previousClose], the
    price handler takes the resolved price for the previous close, so every
    snapshot it returns has change 0 and change percentage 0; and it does
    return a snapshot whenever the market time, if there is one, is within
    the range of dates (beyond it the handler fails on printing the time and
    answers 500). *)
Theorem stock_price_without_previousClose
  (st : Z) (data : Data) (r : ChartResult) (m : Meta) (now : Q) :
  first_result data = Some r ->
  meta r = Some m ->
  previousClose m = None ->
  let reply :=
    stock_price (Fetched {| ok := true; status := st; json := Some data |})
      now in
  resolved_previousClose m = resolved_price m /\
  (forall s, reply = Reply200 s ->
             price s = resolved_price m /\
             (priceChange s == 0)%Q /\ (priceChangePercent s == 0)%Q) /\
  ((forall t, regularMarketTime m = Some t ->
              (Qabs (t * 1000) <= 8640000000000000)%Q) ->
   exists s, reply = Reply200 s) /\
  (forall t, regularMarketTime m = Some t ->
             (8640000000000000 < Qabs (t * 1000))%Q ->
             reply = Reply500 RangeError).
Proof.
  intros Hres Hmeta Hprev reply.
  assert (Hpc : resolved_previousClose m = resolved_price m).
  { unfold resolved_previousClose. now rewrite Hprev. }
  assert (Hreply : reply
                   = try_catch (marketTime <- market_time_string m now ;;
                                Return (Reply200 (snapshot m marketTime)))).
  { subst reply. unfold stock_price, fetch_json. cbn [ok json negb bind].
    now rewrite Hres, Hmeta. }
  split; [exact Hpc |]. split; [| split].
  - intros s Hs. rewrite Hreply in Hs.
    destruct (market_time_string m now) as [iso |]; [| discriminate].
    cbn [bind try_catch] in Hs. inversion Hs. subst s. clear Hs.
    split; [reflexivity |].
    unfold snapshot. cbn [priceChange priceChangePercent]. rewrite Hpc.
    assert (Hzero : (resolved_price m - resolved_price m == 0)%Q).
    { unfold Qminus. apply Qplus_opp_r. }
    split; [exact Hzero |].
    destruct (Qlt_bool 0 (resolved_price m)); [| reflexivity].
    unfold Qdiv. rewrite Hzero. ring.
  - intros Hrange.
    destruct (market_time_string_returns m now Hrange) as [iso Hiso].
    exists (snapshot m iso). rewrite Hreply, Hiso. reflexivity.
  - intros t Ht Hout.
    now rewrite Hreply, (market_time_string_throws m now t Ht Hout).
Qed.

Lemma stock_price_without_previousClose_witness :
  let m := Scenario.meta_of (Some 110%Q) None in
  let reply := stock_price (Scenario.price_response m) 0 in
  resolved_previousClose m = resolved_price m /\
  (forall s, reply = Reply200 s ->
             price s = resolved_price m /\
             (priceChange s == 0)%Q /\ (priceChangePercent s == 0)%Q) /\
  ((forall t, regularMarketTime m = Some t ->
              (Qabs (t * 1000) <= 8640000000000000)%Q) ->
   exists s, reply = Reply200 s) /\
  (forall t, regularMarketTime m = Some t ->
             (8640000000000000 < Qabs (t * 1000))%Q ->
             reply = Reply500 RangeError).
Proof.
  apply (stock_price_without_previousClose 200
           (Scenario.price_data (Scenario.meta_of (Some 110%Q) None))
           (Scenario.price_result (Scenario.meta_of (Some 110%Q) None))
           (Scenario.meta_of (Some 110%Q) None) 0%Q);
    reflexivity.
Defined.

(** * Further properties *)

(** ** [generateUniqueUID] against the table *)

Lemma uid_row_exists_in_false (db : users_table) (u : string) :
  uid_row_exists_in db u = false <->
  forall r, In r db -> row_uid r <> Some u.
Proof.
  unfold uid_row_exists_in. split.
  - intros Hex r Hin Huid.
    assert (Htrue : existsb (uid_is u) db = true).
    { apply existsb_exists. exists r. split; [exact Hin |].
      now apply uid_is_true. }
    congruence.
  - intros Hnone. destruct (existsb (uid_is u) db) eqn:Hex; [| reflexivity].
    apply existsb_exists in Hex. destruct Hex as (r & Hin & Hu).
    apply uid_is_true in Hu. now destruct (Hnone r Hin).
Qed.

(** X1.  When the existence check reads the table, a UID that
    [generateUniqueUID] returns is held by no row of the table, soft-deleted
    rows included, so inserting it cannot violate the unique key on [uid]. *)
Theorem generateUniqueUID_fresh
  (rnd : nat -> Q) (db : users_table) (r : option string) :
  generateUniqueUID rnd (uid_row_exists_in db) = Return r ->
  exists u, r = Some u /\
            (forall row, In row db -> row_uid row <> Some u) /\
            getUserByUID db u = None.
Proof.
  intros Hret.
  destruct (generateUniqueUID_returned rnd _ r Hret)
    as (k & _ & -> & Hfree & _).
  exists (candidate rnd k). split; [reflexivity |].
  pose proof (proj1 (uid_row_exists_in_false db _) Hfree) as Hnone.
  clear Hfree. rename Hnone into Hfree. split; [exact Hfree |].
  unfold getUserByUID.
  destruct (find _ db) as [row |] eqn:Hfind; [| reflexivity].
  apply find_some in Hfind. destruct Hfind as [Hin Hp].
  apply andb_true_iff in Hp. destruct Hp as [Hp _].
  apply uid_is_true in Hp. now destruct (Hfree row Hin).
Qed.

Lemma generateUniqueUID_fresh_witness :
  exists u, Some "5500000"%string = Some u /\
            (forall row, In row Scenario.two_users -> row_uid row <> Some u) /\
            getUserByUID Scenario.two_users u = None.
Proof.
  apply (generateUniqueUID_fresh Scenario.constant_half Scenario.two_users).
  vm_compute. reflexivity.
Defined.

(** X2.  What [generateUniqueUID] does, for every random source and every
    existence check: it throws exactly when the first 99 candidates all
    exist; it returns [u] exactly when [u] is the first candidate that does
    not exist and that candidate is among the first 99; it never returns
    [undefined]. *)
Theorem generateUniqueUID_outcome (rnd : nat -> Q) (taken : string -> bool) :
  (generateUniqueUID rnd taken = Throw "Failed to generate unique UID"%string
   <-> forall j, (j < 99)%nat -> taken (candidate rnd j) = true) /\
  (forall u,
      generateUniqueUID rnd taken = Return (Some u) <->
      exists k, (k < 99)%nat /\ u = candidate rnd k /\
                taken (candidate rnd k) = false /\
                forall j, (j < k)%nat -> taken (candidate rnd j) = true) /\
  generateUniqueUID rnd taken <> Return None.
Proof.
  split; [| split].
  - split; [| apply generateUniqueUID_throws].
    intros Hthrow j Hj.
    destruct (first_false (fun i => taken (candidate rnd i)) 99)
      as [Hall | (k & Hk & Hfree & Hbefore)]; [now apply Hall |].
    rewrite (generateUniqueUID_first_free rnd taken k Hk Hbefore Hfree)
      in Hthrow.
    discriminate.
  - intros u. split.
    + intros Hret.
      destruct (generateUniqueUID_returned rnd taken _ Hret)
        as (k & Hk & Heq & Hfree & Hbefore).
      exists k. inversion Heq. repeat split; assumption.
    + intros (k & Hk & -> & Hfree & Hbefore).
      now apply generateUniqueUID_first_free.
  - intros Hret.
    destruct (generateUniqueUID_returned rnd taken _ Hret)
      as (k & _ & Heq & _). discriminate.
Qed.

(** ** [updateUserUID] and the table *)

Lemma update_uid_written (db db' : users_table) (u : string) (userId : Z) :
  update_uid db u userId = Return db' ->
  db' = map (write_uid u userId) db.
Proof.
  unfold update_uid. destruct (_ && _); [discriminate |].
  intros H. inversion H. reflexivity.
Qed.

Lemma write_uid_id (u : string) (userId : Z) (r : user_row) :
  id (write_uid u userId r) = id r.
Proof. unfold write_uid. now destruct (update_target userId r). Qed.

Lemma write_uid_other (u : string) (userId : Z) (r : user_row) :
  id r <> userId -> write_uid u userId r = r.
Proof.
  intros Hne. unfold write_uid, update_target.
  destruct (Z.eqb_spec (id r) userId); [contradiction | reflexivity].
Qed.

Lemma no_target_unchanged (db : users_table) (u : string) (userId : Z) :
  existsb (update_target userId) db = false ->
  map (write_uid u userId) db = db.
Proof.
  intros Hnone. rewrite <- (map_id db) at 2. apply map_ext_in.
  intros r Hin. unfold write_uid.
  destruct (update_target userId r) eqn:Ht; [| reflexivity].
  assert (Htrue : existsb (update_target userId) db = true).
  { apply existsb_exists. now exists r. }
  congruence.
Qed.

(** The keys of the table survive the [UPDATE] whenever the uid written is
    held by no row that the [UPDATE] leaves alone. *)
Lemma write_uid_table_ok (db : users_table) (u : string) (userId : Z) :
  users_table_ok db ->
  (existsb (update_target userId) db = true ->
   forall y, In y db -> row_uid y = Some u -> update_target userId y = true) ->
  users_table_ok (map (write_uid u userId) db).
Proof.
  intros [Hpk Huniq] Hclash. split.
  - rewrite map_map. erewrite map_ext; [exact Hpk |].
    intros r. apply write_uid_id.
  - intros r1 r2 v Hin1 Hin2 Hv1 Hv2.
    apply in_map_iff in Hin1. destruct Hin1 as (y1 & <- & Hy1).
    apply in_map_iff in Hin2. destruct Hin2 as (y2 & <- & Hy2).
    assert (Htarget : forall y, In y db -> update_target userId y = true ->
                                existsb (update_target userId) db = true).
    { intros y Hy Ht. apply existsb_exists. now exists y. }
    assert (Hid : forall y, update_target userId y = true -> id y = userId).
    { intros y Ht. unfold update_target in Ht.
      apply andb_true_iff in Ht. now apply Z.eqb_eq. }
    unfold write_uid in *.
    destruct (update_target userId y1) eqn:Ht1,
             (update_target userId y2) eqn:Ht2; cbn [row_uid] in Hv1, Hv2.
    + assert (y1 = y2) as ->; [| reflexivity].
      apply (primary_key db); try assumption.
      now rewrite (Hid y1 Ht1), (Hid y2 Ht2).
    + inversion Hv1; subst v.
      rewrite (Hclash (Htarget y1 Hy1 Ht1) y2 Hy2 Hv2) in Ht2. discriminate.
    + inversion Hv2; subst v.
      rewrite (Hclash (Htarget y2 Hy2 Ht2) y1 Hy1 Hv1) in Ht1. discriminate.
    + exact (Huniq y1 y2 v Hy1 Hy2 Hv1 Hv2).
Qed.

Lemma updateUserUID_returns
  (db db' : users_table) (userId : Z) (u : string) (res : option user_row) :
  updateUserUID db userId u = Return (db', res) ->
  update_uid db u userId = Return db' /\ res = getUserById db' userId.
Proof.
  unfold updateUserUID. destruct (negb (test_7_digits u)); [discriminate |].
  destruct (match getUserByUID db u with
            | Some x => negb (id x =? userId)
            | None => false
            end); [discriminate |].
  destruct (update_uid db u userId) as [db'' |]; [| discriminate].
  cbn [bind]. intros H. inversion H. subst. split; reflexivity.
Qed.

Lemma three_users_ok : users_table_ok Scenario.three_users.
Proof.
  split.
  - cbn. repeat constructor; cbn; intuition discriminate.
  - intros r1 r2 u [<- | [<- | [<- | []]]] [<- | [<- | [<- | []]]];
      cbn; congruence.
Defined.

(** X4.  A call that returns changes no row of another user: the table keeps
    its length, and every row whose id is not [userId] stays where it was,
    as it was. *)
Theorem updateUserUID_other_rows
  (db db' : users_table) (userId : Z) (u : string) (res : option user_row) :
  updateUserUID db userId u = Return (db', res) ->
  List.length db' = List.length db /\
  forall n x, nth_error db n = Some x -> id x <> userId ->
              nth_error db' n = Some x.
Proof.
  intros Hret.
  destruct (updateUserUID_returns db db' userId u res Hret) as [Hupd _].
  rewrite (update_uid_written db db' u userId Hupd). split.
  - apply length_map.
  - intros n x Hn Hne. rewrite nth_error_map, Hn. cbn [option_map].
    now rewrite write_uid_other.
Qed.

Lemma updateUserUID_other_rows_witness :
  List.length [Scenario.alice_7777777; Scenario.bob; Scenario.carol]
  = List.length Scenario.three_users /\
  forall n x, nth_error Scenario.three_users n = Some x -> id x <> 1 ->
              nth_error [Scenario.alice_7777777; Scenario.bob; Scenario.carol]
                n = Some x.
Proof.
  apply (updateUserUID_other_rows Scenario.three_users _ 1 "7777777"
           (Some Scenario.alice_7777777)).
  vm_compute. reflexivity.
Defined.

Lemma getUserById_none (db : users_table) (userId : Z) :
  getUserById db userId = None ->
  existsb (update_target userId) db = false.
Proof.
  unfold getUserById. intros Hnone.
  destruct (existsb (update_target userId) db) eqn:Hex; [| reflexivity].
  apply existsb_exists in Hex. destruct Hex as (r & Hin & Ht).
  apply (find_none _ _ Hnone) in Hin. unfold update_target in Ht. congruence.
Qed.

Lemma getUserByUID_unheld (db : users_table) (u : string) :
  (forall x, In x db -> deleted x = false -> row_uid x <> Some u) ->
  getUserByUID db u = None.
Proof.
  intros Hfree. unfold getUserByUID.
  destruct (find _ db) as [x |] eqn:Hfind; [| reflexivity].
  apply find_some in Hfind. destruct Hfind as [Hin Hp].
  apply andb_true_iff in Hp. destruct Hp as [Hu Hd].
  apply uid_is_true in Hu. apply negb_true_iff in Hd.
  now destruct (Hfree x Hin Hd).
Qed.

(** X5.  For a user id that no active row has, [updateUserUID] with a
    well-formed UID that no active user holds throws nothing: it leaves the
    table as it is and returns [null]. *)
Theorem updateUserUID_unknown_user
  (db : users_table) (userId : Z) (newUID : string) :
  test_7_digits newUID = true ->
  getUserById db userId = None ->
  getUserByUID db newUID = None ->
  updateUserUID db userId newUID = Return (db, None).
Proof.
  intros Hfmt Hnobody Hfree. unfold updateUserUID.
  rewrite Hfmt, Hfree. cbn [negb]. unfold update_uid.
  pose proof (getUserById_none db userId Hnobody) as Hnone.
  rewrite Hnone. cbn [andb bind].
  change (map _ db) with (map (write_uid newUID userId) db).
  now rewrite (no_target_unchanged db newUID userId Hnone), Hnobody.
Qed.

Lemma updateUserUID_unknown_user_witness :
  updateUserUID Scenario.three_users 3 "7777777"
  = Return (Scenario.three_users, None).
Proof.
  apply updateUserUID_unknown_user; reflexivity.
Defined.

(** X6.  When an active user takes a well-formed UID that no row of the table
    holds, the call returns the user's row with the new UID, and in the table
    it leaves both [getUserById] and [getUserByUID] of the new UID find that
    row. *)
Theorem updateUserUID_then_lookup
  (db : users_table) (r : user_row) (newUID : string) :
  users_table_ok db ->
  test_7_digits newUID = true ->
  In r db -> deleted r = false ->
  (forall x, In x db -> row_uid x <> Some newUID) ->
  let r' := {| id := id r; row_uid := Some newUID; deleted := false |} in
  exists db',
    updateUserUID db (id r) newUID = Return (db', Some r') /\
    getUserById db' (id r) = Some r' /\
    getUserByUID db' newUID = Some r'.
Proof.
  intros Hok Hfmt Hin Hactive Hfree r'.
  assert (Htarget : update_target (id r) r = true).
  { unfold update_target. now rewrite Z.eqb_refl, Hactive. }
  assert (Hupd : update_uid db newUID (id r)
                 = Return (map (write_uid newUID (id r)) db)).
  { unfold update_uid.
    destruct (existsb (fun x => uid_is newUID x
                                && negb (update_target (id r) x)) db)
      eqn:Hclash.
    - apply existsb_exists in Hclash. destruct Hclash as (x & Hx & Hp).
      apply andb_true_iff in Hp. destruct Hp as [Hu _].
      apply uid_is_true in Hu. now destruct (Hfree x Hx).
    - now rewrite andb_false_r. }
  assert (Hok' : users_table_ok (map (write_uid newUID (id r)) db)).
  { apply write_uid_table_ok; [exact Hok |].
    intros _ y Hy Hu. now destruct (Hfree y Hy). }
  assert (Hin' : In r' (map (write_uid newUID (id r)) db)).
  { apply in_map_iff. exists r. split; [| exact Hin].
    unfold write_uid. rewrite Htarget. subst r'. now rewrite Hactive. }
  exists (map (write_uid newUID (id r)) db).
  assert (Hbyid : getUserById (map (write_uid newUID (id r)) db) (id r)
                  = Some r').
  { exact (getUserById_holder _ r' Hok' Hin' eq_refl). }
  repeat split.
  - unfold updateUserUID. rewrite Hfmt. cbn [negb].
    rewrite (getUserByUID_unheld db newUID)
      by (intros x Hx _; now apply Hfree).
    rewrite Hupd. cbn [bind]. now rewrite Hbyid.
  - exact Hbyid.
  - exact (getUserByUID_holder _ newUID r' Hok' Hin' eq_refl eq_refl).
Qed.

Lemma updateUserUID_then_lookup_witness :
  exists db',
    updateUserUID Scenario.three_users 1 "7777777"
    = Return (db', Some Scenario.alice_7777777) /\
    getUserById db' 1 = Some Scenario.alice_7777777 /\
    getUserByUID db' "7777777" = Some Scenario.alice_7777777.
Proof.
  apply (updateUserUID_then_lookup Scenario.three_users Scenario.alice
           "7777777" three_users_ok eq_refl).
  - left. reflexivity.
  - reflexivity.
  - intros x [<- | [<- | [<- | []]]]; discriminate.
Defined.

(** X7.  After a user's UID is changed to a different one, the old UID is
    held by no row any more: [getUserByUID] no longer finds it and the
    existence check of [generateUniqueUID] reports it free. *)
Theorem updateUserUID_releases_old
  (db db' : users_table) (r : user_row) (old newUID : string)
  (res : option user_row) :
  users_table_ok db ->
  In r db -> deleted r = false -> row_uid r = Some old ->
  old <> newUID ->
  updateUserUID db (id r) newUID = Return (db', res) ->
  getUserByUID db' old = None /\ uid_row_exists_in db' old = false.
Proof.
  intros [Hpk Huniq] Hin Hactive Hold Hdiff Hret.
  destruct (updateUserUID_returns db db' (id r) newUID res Hret) as [Hupd _].
  rewrite (update_uid_written db db' newUID (id r) Hupd).
  assert (Hnone : forall x, In x (map (write_uid newUID (id r)) db) ->
                            row_uid x <> Some old).
  { intros x Hx Hu. apply in_map_iff in Hx. destruct Hx as (y & <- & Hy).
    unfold write_uid in Hu.
    destruct (update_target (id r) y) eqn:Ht; cbn [row_uid] in Hu.
    - inversion Hu. congruence.
    - rewrite (Huniq y r old Hy Hin Hu Hold) in Ht.
      unfold update_target in Ht.
      rewrite Z.eqb_refl, Hactive in Ht. discriminate. }
  split.
  - apply getUserByUID_unheld. intros x Hx _. now apply Hnone.
  - now apply uid_row_exists_in_false.
Qed.

Lemma updateUserUID_releases_old_witness :
  getUserByUID [Scenario.alice_7777777; Scenario.bob; Scenario.carol]
    "1234567" = None /\
  uid_row_exists_in [Scenario.alice_7777777; Scenario.bob; Scenario.carol]
    "1234567" = false.
Proof.
  apply (updateUserUID_releases_old Scenario.three_users _ Scenario.alice
           "1234567" "7777777" (Some Scenario.alice_7777777) three_users_ok).
  - left. reflexivity.
  - reflexivity.
  - reflexivity.
  - discriminate.
  - vm_compute. reflexivity.
Defined.

(** X8.  A UID that only a soft-deleted row holds passes the check of
    [updateUserUID], which looks at active rows, and then fails in the
    [UPDATE] on the unique key: an active user who asks for it gets the
    error of the data base, not "UID already exists". *)
Theorem updateUserUID_deleted_holder
  (db : users_table) (r d : user_row) (newUID : string) :
  users_table_ok db ->
  test_7_digits newUID = true ->
  In r db -> deleted r = false ->
  In d db -> deleted d = true -> row_uid d = Some newUID ->
  getUserByUID db newUID = None /\
  exists e, updateUserUID db (id r) newUID = Throw e /\
            e <> "UID already exists"%string /\
            e <> "UID must be exactly 7 digits"%string.
Proof.
  intros [Hpk Huniq] Hfmt Hr Hactive Hd Hdeleted Hheld.
  assert (Hnone : getUserByUID db newUID = None).
  { apply getUserByUID_unheld. intros x Hx Hxa Hxu.
    rewrite (Huniq x d newUID Hx Hd Hxu Hheld) in Hxa. congruence. }
  split; [exact Hnone |].
  exists "Duplicate entry for key 'uid'"%string.
  split; [| split; discriminate].
  unfold updateUserUID. rewrite Hfmt, Hnone. cbn [negb]. unfold update_uid.
  assert (Htarget : existsb (update_target (id r)) db = true).
  { apply existsb_exists. exists r. split; [exact Hr |].
    unfold update_target. now rewrite Z.eqb_refl, Hactive. }
  assert (Hclash : existsb
            (fun x => uid_is newUID x && negb (update_target (id r) x)) db
            = true).
  { apply existsb_exists. exists d. split; [exact Hd |].
    rewrite (proj2 (uid_is_true newUID d) Hheld).
    unfold update_target. rewrite Hdeleted. cbn [negb].
    now rewrite andb_false_r. }
  now rewrite Htarget, Hclash.
Qed.

Lemma updateUserUID_deleted_holder_witness :
  getUserByUID Scenario.three_users "5555555" = None /\
  exists e, updateUserUID Scenario.three_users 1 "5555555" = Throw e /\
            e <> "UID already exists"%string /\
            e <> "UID must be exactly 7 digits"%string.
Proof.
  apply (updateUserUID_deleted_holder Scenario.three_users Scenario.alice
           Scenario.carol "5555555" three_users_ok eq_refl).
  - left. reflexivity.
  - reflexivity.
  - right. right. left. reflexivity.
  - reflexivity.
  - reflexivity.
Defined.

(** ** Soft deletion and e-mail verification *)

Import Account.

Lemma affected_existsb {A} (p : A -> bool) (l : list A) :
  (0 <? List.length (filter p l))%nat = existsb p l.
Proof.
  induction l as [| x l IH]; [reflexivity |].
  cbn [filter existsb]. destruct (p x); [reflexivity | exact IH].
Qed.

Lemma update_where_fst (selected : account -> bool) (set : account -> account)
  (db : accounts) :
  fst (update_where selected set db)
  = map (fun r => if selected r then set r else r) db.
Proof. reflexivity. Qed.

(** An [UPDATE] whose condition selects no row changes nothing. *)
Lemma update_where_none (selected : account -> bool)
  (set : account -> account) (db : accounts) :
  (forall r, In r db -> selected r = false) ->
  update_where selected set db = (db, 0%nat).
Proof.
  intros Hnone. unfold update_where. f_equal.
  - rewrite <- (map_id db) at 2. apply map_ext_in.
    intros r Hr. now rewrite (Hnone r Hr).
  - induction db as [| x db IH]; [reflexivity |].
    cbn [filter]. rewrite (Hnone x (or_introl eq_refl)).
    apply IH. intros r Hr. apply Hnone. now right.
Qed.

Section Verification.

Variable sql_eq : string -> string -> bool.
Variable strict_mode : bool.
Hypothesis sql_eq_refl : forall a, sql_eq a a = true.

(** X9.  Sending a code and verifying with it: when an active account has
    the e-mail address and the code has at most ten characters, which is what
    the column holds, [setEmailVerificationCode] reports success, a following
    [verifyEmailCode] with the same code reports success, and then every
    active account with that address is verified and has no code left. *)
Theorem verifyEmailCode_after_set
  (db : accounts) (now : Z) (e code : string) :
  emailExists sql_eq db e = true ->
  (String.length code <= 10)%nat ->
  exists db1,
    setEmailVerificationCode sql_eq strict_mode db now e code
    = Return (db1, true) /\
    let verified := verifyEmailCode sql_eq db1 e code in
    snd verified = true /\
    forall r, In r (fst verified) ->
              sql_eq (email r) e = true -> deleted_at r = None ->
              email_verified r = true /\ email_verification_code r = None.
Proof.
  intros Hexists Hlength.
  unfold setEmailVerificationCode.
  change (existsb (fun r => sql_eq (email r) e && not_deleted r) db)
    with (emailExists sql_eq db e).
  rewrite Hexists. unfold store_varchar.
  rewrite (proj2 (Nat.leb_le _ _) Hlength). cbn [bind].
  unfold update_where. rewrite affected_existsb.
  change (existsb (fun r => sql_eq (email r) e && not_deleted r) db)
    with (emailExists sql_eq db e).
  rewrite Hexists. eexists. split; [reflexivity |].
  unfold verifyEmailCode, update_where.
  cbn [fst snd]. rewrite affected_existsb. split.
  - unfold emailExists in Hexists. apply existsb_exists in Hexists.
    destruct Hexists as (r & Hr & Hsel).
    apply existsb_exists.
    exists (if sql_eq (email r) e && not_deleted r
            then {| account_id := account_id r; email := email r;
                    email_verification_code := Some code;
                    email_verified := email_verified r;
                    email_verification_sent_at := Some now;
                    is_active := is_active r; deleted_at := deleted_at r |}
            else r).
    split; [apply in_map_iff; exists r; split; [reflexivity | exact Hr] |].
    rewrite Hsel. unfold code_is, not_deleted in *. cbn.
    apply andb_true_iff in Hsel. destruct Hsel as [He Hd].
    now rewrite He, Hd, sql_eq_refl.
  - intros r2 Hr2 He Hd.
    apply in_map_iff in Hr2. destruct Hr2 as (r1 & <- & Hr1).
    apply in_map_iff in Hr1. destruct Hr1 as (r0 & <- & Hr0).
    destruct (sql_eq (email r0) e && not_deleted r0) eqn:Hsel.
    + unfold code_is, not_deleted in *. cbn in *.
      apply andb_true_iff in Hsel. destruct Hsel as [He0 Hd0].
      rewrite He0, Hd0, sql_eq_refl in *. cbn. split; reflexivity.
    + destruct (sql_eq (email r0) e && code_is sql_eq code r0
                && not_deleted r0) eqn:Hsel2; cbn in *.
      * split; reflexivity.
      * unfold not_deleted in Hsel. rewrite He, Hd in Hsel. discriminate.
Qed.

(** X10.  A verification code works once: after a [verifyEmailCode] that
    reported success, no later [verifyEmailCode] for that address succeeds,
    whatever the code, and none changes the table (at most one row has the
    address, as the unique key on [email] ensures). *)
Theorem verifyEmailCode_single_use
  (db db' : accounts) (e code : string) :
  (forall r1 r2, In r1 db -> In r2 db ->
                 sql_eq (email r1) e = true -> sql_eq (email r2) e = true ->
                 r1 = r2) ->
  verifyEmailCode sql_eq db e code = (db', true) ->
  forall code', verifyEmailCode sql_eq db' e code' = (db', false).
Proof.
  intros Huniq Hverified code'.
  unfold verifyEmailCode, update_where in Hverified.
  pose proof (f_equal fst Hverified) as Hdb.
  pose proof (f_equal snd Hverified) as Hcount.
  cbn [fst snd] in Hdb, Hcount. clear Hverified.
  rewrite affected_existsb in Hcount. apply existsb_exists in Hcount.
  destruct Hcount as (r0 & Hr0 & Hsel0).
  apply andb_true_iff in Hsel0. destruct Hsel0 as [Hsel0 Hd0].
  apply andb_true_iff in Hsel0. destruct Hsel0 as [He0 Hc0].
  unfold verifyEmailCode at 1.
  rewrite update_where_none; [reflexivity |].
  intros r2 Hr2. rewrite <- Hdb in Hr2.
  apply in_map_iff in Hr2. destruct Hr2 as (y & <- & Hy).
  destruct (sql_eq (email y) e) eqn:Hey.
  - rewrite (Huniq y r0 Hy Hr0 Hey He0). rewrite Hc0, Hd0.
    cbn [andb email]. rewrite He0. unfold code_is. reflexivity.
  - cbn [andb]. now rewrite Hey.
Qed.

(** X11.  A verification that finds no active account with the address and
    the code (wrong code, no code sent, unknown or deleted account) reports
    failure and leaves the table as it is. *)
Theorem verifyEmailCode_no_match (db : accounts) (e code : string) :
  (forall r, In r db -> sql_eq (email r) e = true -> deleted_at r = None ->
             forall c, email_verification_code r = Some c ->
                       sql_eq c code = false) ->
  verifyEmailCode sql_eq db e code = (db, false).
Proof.
  intros Hnone. unfold verifyEmailCode.
  rewrite update_where_none; [reflexivity |].
  intros r Hr.
  destruct (sql_eq (email r) e) eqn:He; [| reflexivity].
  unfold not_deleted, code_is.
  destruct (deleted_at r) eqn:Hd; [now rewrite andb_false_r |].
  destruct (email_verification_code r) as [c |] eqn:Hc; [| reflexivity].
  now rewrite (Hnone r Hr He Hd c Hc).
Qed.

End Verification.

Lemma verifyEmailCode_after_set_witness :
  exists db1,
    setEmailVerificationCode String.eqb true [Scenario.dana] 50
      "dana@example.com" "123456"
    = Return (db1, true) /\
    let verified :=
      verifyEmailCode String.eqb db1 "dana@example.com" "123456" in
    snd verified = true /\
    forall r, In r (fst verified) ->
              String.eqb (email r) "dana@example.com" = true ->
              deleted_at r = None ->
              email_verified r = true /\ email_verification_code r = None.
Proof.
  apply (verifyEmailCode_after_set String.eqb true String.eqb_refl
           [Scenario.dana] 50 "dana@example.com" "123456").
  - reflexivity.
  - cbn. lia.
Defined.

Lemma verifyEmailCode_single_use_witness :
  verifyEmailCode String.eqb [Scenario.dana_verified]
    "dana@example.com" "123456"
  = ([Scenario.dana_verified], false).
Proof.
  apply (verifyEmailCode_single_use String.eqb [Scenario.dana_sent]
           [Scenario.dana_verified] "dana@example.com" "123456").
  - intros r1 r2 [<- | []] [<- | []] _ _. reflexivity.
  - reflexivity.
Defined.

Lemma verifyEmailCode_no_match_witness :
  verifyEmailCode String.eqb [Scenario.dana_sent] "dana@example.com" "000000"
  = ([Scenario.dana_sent], false).
Proof.
  apply (verifyEmailCode_no_match String.eqb).
  intros r [<- | []] _ _ c Hc. inversion Hc. reflexivity.
Defined.

(** X12.  [deleteUser] reports success exactly when an undeleted row has the
    id; afterwards every row with that id is deleted, rows that were deleted
    before keep their deletion time, and deleting again reports failure and
    changes nothing. *)
Theorem deleteUser_once (db : accounts) (now userId : Z) :
  let result := deleteUser db now userId in
  (snd result = true <->
   exists r, In r db /\ account_id r = userId /\ deleted_at r = None) /\
  (forall r, In r (fst result) -> account_id r = userId ->
             deleted_at r <> None /\
             (deleted_at r = Some now \/ In r db)) /\
  (forall r t, In r db -> deleted_at r = Some t -> In r (fst result)) /\
  (forall now', deleteUser (fst result) now' userId = (fst result, false)).
Proof.
  cbv zeta. split; [| split; [| split]].
  - unfold deleteUser, update_where. cbn [fst snd].
    rewrite affected_existsb. split.
    + intros Hex. apply existsb_exists in Hex.
      destruct Hex as (r & Hr & Hsel).
      apply andb_true_iff in Hsel. destruct Hsel as [Hid Hd].
      apply Z.eqb_eq in Hid. unfold not_deleted in Hd.
      exists r. destruct (deleted_at r); [discriminate | now repeat split].
    + intros (r & Hr & Hid & Hd). apply existsb_exists. exists r.
      split; [exact Hr |]. unfold not_deleted.
      now rewrite Hd, Hid, Z.eqb_refl.
  - unfold deleteUser, update_where. cbn [fst snd]. intros r Hr Hid.
    apply in_map_iff in Hr. destruct Hr as (y & <- & Hy).
    unfold not_deleted in *.
    destruct (account_id y =? userId) eqn:Hy_id, (deleted_at y) eqn:Hd;
      cbn in *; rewrite ?Hd.
    + split; [discriminate | now right].
    + split; [discriminate | now left].
    + split; [discriminate | now right].
    + apply Z.eqb_neq in Hy_id. contradiction.
  - unfold deleteUser, update_where. cbn [fst snd]. intros r t Hr Hd.
    apply in_map_iff. exists r. split; [| exact Hr].
    unfold not_deleted. rewrite Hd. now rewrite andb_false_r.
  - intros now'. unfold deleteUser at 1.
    rewrite update_where_none; [reflexivity |].
    intros r Hr. unfold deleteUser, update_where in Hr. cbn [fst] in Hr.
    apply in_map_iff in Hr. destruct Hr as (y & <- & Hy).
    unfold not_deleted.
    destruct (account_id y =? userId) eqn:Hid, (deleted_at y) eqn:Hd;
      cbn; rewrite ?Hid, ?Hd; reflexivity.
Qed.

Section DeletedAccount.

Variable sql_eq : string -> string -> bool.
Variable strict_mode : bool.

(** X13.  Once the account that has an e-mail address is deleted,
    [emailExists] reports the address free although its row is still in the
    table, and neither [setEmailVerificationCode] nor [verifyEmailCode]
    reaches it any more. *)
Theorem deleteUser_hides_email
  (db : accounts) (now : Z) (r : account) (e : string) :
  In r db ->
  (forall r2, In r2 db -> sql_eq (email r2) e = true -> r2 = r) ->
  let db' := fst (deleteUser db now (account_id r)) in
  emailExists sql_eq db' e = false /\
  (exists r', In r' db' /\ email r' = email r /\ deleted_at r' <> None) /\
  (forall now' code,
      setEmailVerificationCode sql_eq strict_mode db' now' e code
      = Return (db', false)) /\
  (forall code, verifyEmailCode sql_eq db' e code = (db', false)).
Proof.
  intros Hr Huniq db'.
  assert (Hgone : forall x, In x db' ->
                            sql_eq (email x) e && not_deleted x = false).
  { intros x Hx. subst db'. unfold deleteUser, update_where in Hx.
    cbn [fst] in Hx. apply in_map_iff in Hx. destruct Hx as (y & <- & Hy).
    destruct (sql_eq (email y) e) eqn:Hey.
    - rewrite (Huniq y Hy Hey) in *. rewrite Z.eqb_refl. cbn [andb].
      unfold not_deleted.
      destruct (deleted_at r) eqn:Hd; cbn; rewrite ?Hd, ?Hey;
        now rewrite ?andb_false_r.
    - destruct ((account_id y =? account_id r) && not_deleted y); cbn;
        now rewrite Hey. }
  repeat split.
  - unfold emailExists.
    destruct (existsb _ db') eqn:Hex; [| reflexivity].
    apply existsb_exists in Hex. destruct Hex as (x & Hx & Hsel).
    rewrite (Hgone x Hx) in Hsel. discriminate.
  - destruct (deleteUser_once db now (account_id r)) as (_ & Hdel & _).
    subst db'. unfold deleteUser, update_where. cbn [fst].
    eexists. split; [apply in_map_iff; exists r; split;
                       [reflexivity | exact Hr] |].
    rewrite Z.eqb_refl. unfold not_deleted. cbn [andb].
    destruct (deleted_at r) eqn:Hd; cbn; [rewrite Hd |];
      split; (reflexivity || discriminate).
  - intros now' code. unfold setEmailVerificationCode.
    assert (Hnone : existsb (fun x => sql_eq (email x) e && not_deleted x) db'
                    = false).
    { destruct (existsb _ db') eqn:Hex; [| reflexivity].
      apply existsb_exists in Hex. destruct Hex as (x & Hx & Hsel).
      rewrite (Hgone x Hx) in Hsel. discriminate. }
    rewrite Hnone. cbn [bind].
    rewrite update_where_none; [reflexivity | exact Hgone].
  - intros code. unfold verifyEmailCode.
    rewrite update_where_none; [reflexivity |].
    intros x Hx. pose proof (Hgone x Hx) as Hg.
    apply andb_false_iff in Hg. destruct Hg as [-> | ->];
      [reflexivity | apply andb_false_r].
Qed.

End DeletedAccount.

Lemma deleteUser_hides_email_witness :
  let db' := fst (deleteUser [Scenario.dana] 60 4) in
  emailExists String.eqb db' "dana@example.com" = false /\
  (exists r', In r' db' /\ email r' = "dana@example.com"%string /\
              deleted_at r' <> None) /\
  (forall now' code,
      setEmailVerificationCode String.eqb true db' now' "dana@example.com"
        code
      = Return (db', false)) /\
  (forall code,
      verifyEmailCode String.eqb db' "dana@example.com" code = (db', false)).
Proof.
  apply (deleteUser_hides_email String.eqb true [Scenario.dana] 60
           Scenario.dana "dana@example.com").
  - left. reflexivity.
  - intros r2 [<- | []] _. reflexivity.
Defined.

(** ** [updateUser] and the profile route *)

Import Profile.

Lemma updateUser_loop_taken {value : Type}
  (entries : list (string * option value)) :
  forall updates values,
    updateUser_loop value entries updates values
    = (updates ++ map (fun p => (fst p ++ " = ?")%string)
                    (taken_entries value entries),
       values ++ map (fun p => Bound (snd p)) (taken_entries value entries)).
Proof.
  induction entries as [| [key v] entries IH]; intros updates values.
  - cbn. now rewrite !app_nil_r.
  - cbn [updateUser_loop taken_entries flat_map fst snd].
    fold (taken_entries value entries).
    destruct v as [x |]; [| apply IH].
    destruct (existsb (String.eqb key) allowedFields); [| apply IH].
    rewrite IH, !map_app, <- !app_assoc. reflexivity.
Qed.

Lemma taken_entries_allowed {value : Type}
  (entries : list (string * option value)) :
  Forall (fun p => In (fst p) allowedFields /\ In (fst p, Some (snd p)) entries)
    (taken_entries value entries).
Proof.
  induction entries as [| [key v] entries IH]; [constructor |].
  cbn [taken_entries flat_map fst snd]. fold (taken_entries value entries).
  assert (IH' : Forall
            (fun p => In (fst p) allowedFields /\
                      In (fst p, Some (snd p)) ((key, v) :: entries))
            (taken_entries value entries)).
  { eapply Forall_impl; [| exact IH]. intros p [Ha Hin].
    split; [exact Ha | now right]. }
  destruct v as [x |]; [| exact IH'].
  destruct (existsb (String.eqb key) allowedFields) eqn:Hallowed;
    [| exact IH'].
  constructor; [| exact IH'].
  cbn [fst snd]. split; [| now left].
  apply existsb_exists in Hallowed. destruct Hallowed as (k & Hk & Heq).
  apply String.eqb_eq in Heq. now subst.
Qed.

Lemma count_char_append (c : ascii) (s t : string) :
  count_char c (s ++ t) = (count_char c s + count_char c t)%nat.
Proof.
  induction s as [| a s IH]; [reflexivity |].
  cbn [String.append count_char]. rewrite IH. lia.
Qed.

(** Every [SET] item of an allow-listed column has one placeholder, and the
    separator has none. *)
Lemma count_placeholders_set (cols : list string) :
  Forall (fun k => In k allowedFields) cols ->
  count_char "?" (String.concat ", "
                    (map (fun k => (k ++ " = ?")%string) cols))
  = List.length cols.
Proof.
  assert (Hitem : forall k, In k allowedFields ->
                            count_char "?" (k ++ " = ?") = 1%nat).
  { intros k Hk. cbn in Hk.
    repeat (destruct Hk as [<- | Hk]; [reflexivity |]). contradiction. }
  induction cols as [| k cols IH]; intros Hall; [reflexivity |].
  inversion Hall as [| ? ? Hk Hcols]; subst.
  specialize (IH Hcols).
  destruct cols as [| k' cols]; [cbn [map String.concat]; now apply Hitem |].
  cbn [map String.concat List.length] in *.
  rewrite (count_char_append _ (k ++ " = ?")), (Hitem k Hk).
  rewrite (count_char_append _ ", ").
  change (count_char "?" ", ") with 0%nat.
  rewrite IH. reflexivity.
Qed.

(** X14.  [updateUser] sends no [UPDATE] exactly when [updateData] has no
    allow-listed column with a defined value: any other key ([uid], [email],
    [password_hash], ...) is ignored. *)
Theorem updateUser_query_none {value : Type} (userId : Z)
  (updateData : list (string * option value)) :
  updateUser_query value userId updateData = None <->
  forall k x, In (k, Some x) updateData -> ~ In k allowedFields.
Proof.
  unfold updateUser_query. rewrite updateUser_loop_taken. cbn [app].
  split.
  - intros Hnone k x Hin Hallowed.
    assert (Htaken : In (k, x) (taken_entries value updateData)).
    { unfold taken_entries. apply in_flat_map. exists (k, Some x).
      split; [exact Hin |]. cbn [fst snd].
      assert (Hex : existsb (String.eqb k) allowedFields = true).
      { apply existsb_exists. exists k. split; [exact Hallowed |].
        apply String.eqb_refl. }
      rewrite Hex. now left. }
    destruct (taken_entries value updateData); [contradiction |].
    discriminate.
  - intros Hignored.
    destruct (taken_entries value updateData) as [| p rest] eqn:Htaken;
      [reflexivity |].
    pose proof (taken_entries_allowed updateData) as Hall.
    rewrite Htaken in Hall. inversion Hall as [| ? ? [Ha Hin] _]; subst.
    now destruct (Hignored (fst p) (snd p) Hin).
Qed.

(** X15.  A statement that [updateUser] sends sets allow-listed columns only,
    one for each entry taken from [updateData] and in their order, and it
    has exactly as many [?] placeholders as parameters: one per column and a
    last one for the user id. *)
Theorem updateUser_query_wellformed {value : Type} (userId : Z)
  (updateData : list (string * option value))
  (sql : string) (params : list (param value)) :
  updateUser_query value userId updateData = Some (sql, params) ->
  exists cols vals,
    cols <> [] /\
    Forall (fun k => In k allowedFields) cols /\
    combine cols vals = taken_entries value updateData /\
    sql = updateUser_sql (map (fun k => (k ++ " = ?")%string) cols) /\
    params = map Bound vals ++ [UserId userId] /\
    count_char "?" sql = List.length params.
Proof.
  unfold updateUser_query. rewrite updateUser_loop_taken. cbn [app].
  intros Hq.
  pose proof (taken_entries_allowed updateData) as Hall.
  set (taken := taken_entries value updateData) in *.
  assert (Hcols : Forall (fun k => In k allowedFields) (map fst taken)).
  { apply Forall_map. eapply Forall_impl; [| exact Hall]. now intros p [Ha _]. }
  destruct (map (fun p => (fst p ++ " = ?")%string) taken)
    as [| item items] eqn:Hitems; [discriminate |].
  inversion Hq as [[Hsql Hparams]]. clear Hq.
  exists (map fst taken), (map snd taken).
  assert (Hsame : map (fun k => (k ++ " = ?")%string) (map fst taken)
                  = item :: items).
  { now rewrite map_map. }
  repeat split.
  - destruct taken; [discriminate | discriminate].
  - exact Hcols.
  - clear. induction taken as [| [k x] taken IH]; [reflexivity |].
    cbn [map combine fst snd]. now rewrite IH.
  - now rewrite Hsame.
  - now rewrite map_map.
  - rewrite <- Hsame. unfold updateUser_sql.
    rewrite !count_char_append, (count_placeholders_set _ Hcols).
    rewrite length_app, !length_map. cbn. lia.
Qed.

Lemma updateUser_query_wellformed_witness :
  exists cols vals,
    cols <> [] /\
    Forall (fun k => In k allowedFields) cols /\
    combine cols vals = taken_entries string Scenario.mixed_updateData /\
    updateUser_sql ["bio = ?"%string]
    = updateUser_sql (map (fun k => (k ++ " = ?")%string) cols) /\
    [Bound "hello"%string; UserId 1] = map Bound vals ++ [UserId 1] /\
    count_char "?" (updateUser_sql ["bio = ?"%string])
    = List.length [Bound "hello"%string; UserId 1].
Proof.
  apply (updateUser_query_wellformed 1 Scenario.mixed_updateData).
  reflexivity.
Defined.

(** X16.  The profile route reaches [updateUser] only for the caller's own id
    and only with an image that starts with [data:image], [http://],
    [https://] or [/uploads/]; the statement [updateUser] then sends sets
    [profile_image] if an image was given, then [bio] if a bio was given, and
    nothing else, and with neither field no statement is sent. *)
Theorem put_profile_statement
  (request_user_id userId : Z) (profile_image bio : option string)
  (id : Z) (updateData : list (string * option string)) :
  put_profile request_user_id userId profile_image bio
  = CallUpdateUser id updateData ->
  request_user_id = userId /\ id = userId /\
  (forall image, profile_image = Some image ->
     String.prefix "data:image" image = true \/
     String.prefix "http://" image = true \/
     String.prefix "https://" image = true \/
     String.prefix "/uploads/" image = true) /\
  updateUser_query string id updateData
  = match profile_image, bio with
    | None, None => None
    | Some image, None =>
        Some (updateUser_sql ["profile_image = ?"%string],
              [Bound image; UserId id])
    | None, Some b =>
        Some (updateUser_sql ["bio = ?"%string], [Bound b; UserId id])
    | Some image, Some b =>
        Some (updateUser_sql ["profile_image = ?"; "bio = ?"]%string,
              [Bound image; Bound b; UserId id])
    end.
Proof.
  unfold put_profile. intros Hstep.
  destruct (Z.eqb_spec request_user_id userId) as [Hsame | _];
    [| discriminate].
  cbn [negb] in Hstep.
  destruct profile_image as [image |].
  - destruct (String.prefix "data:image" image) eqn:Hdata.
    + inversion Hstep; subst. repeat split.
      * intros i Hi. inversion Hi; subst. now left.
      * now destruct bio.
    + destruct (url_or_upload image) eqn:Hurl; [| discriminate].
      inversion Hstep; subst. repeat split.
      * intros i Hi. inversion Hi; subst. right.
        unfold url_or_upload in Hurl.
        apply orb_true_iff in Hurl. destruct Hurl as [Hurl | Hurl];
          [apply orb_true_iff in Hurl; tauto | tauto].
      * now destruct bio.
  - inversion Hstep; subst. repeat split.
    + intros i Hi. discriminate.
    + now destruct bio.
Qed.

Lemma put_profile_statement_witness :
  1 = 1 /\ 1 = 1 /\
  (forall image, Some "/uploads/a.png"%string = Some image ->
     String.prefix "data:image" image = true \/
     String.prefix "http://" image = true \/
     String.prefix "https://" image = true \/
     String.prefix "/uploads/" image = true) /\
  updateUser_query string 1
    [("profile_image", Some "/uploads/a.png"); ("bio", Some "hello")]%string
  = Some (updateUser_sql ["profile_image = ?"; "bio = ?"]%string,
          [Bound "/uploads/a.png"%string; Bound "hello"%string; UserId 1]).
Proof.
  apply (put_profile_statement 1 1 (Some "/uploads/a.png"%string)
           (Some "hello"%string)).
  reflexivity.
Defined.

(** ** Further properties of the market-data handlers *)

(** X17.  The interval the futures handler asks upstream for is always one of
    1m, 5m, 15m, 1h and 1d: each of these five is kept, and every other
    requested interval becomes 1d. *)
Theorem binanceInterval_five (interval : string) :
  In (binanceInterval interval) ["1m"; "5m"; "15m"; "1h"; "1d"]%string /\
  (In interval ["1m"; "5m"; "15m"; "1h"; "1d"]%string <->
   binanceInterval interval = interval) /\
  (~ In interval ["1m"; "5m"; "15m"; "1h"]%string <->
   binanceInterval interval = "1d"%string).
Proof.
  unfold binanceInterval.
  destruct (String.eqb_spec interval "1m") as [-> | H1];
    [cbn; intuition congruence |].
  destruct (String.eqb_spec interval "5m") as [-> | H2];
    [cbn; intuition congruence |].
  destruct (String.eqb_spec interval "15m") as [-> | H3];
    [cbn; intuition congruence |].
  destruct (String.eqb_spec interval "1h") as [-> | H4];
    [cbn; intuition congruence |].
  cbn. intuition congruence.
Qed.

Lemma chart_row_positive (q : Quote) (i : nat) (t : jnum)
  (acc cs : list Candle) :
  chart_row q i t acc = Return cs ->
  Forall positive_prices acc -> Forall positive_prices cs.
Proof.
  unfold chart_row, price_at. intros Hrow Hacc.
  destruct (quote_open q) as [o |]; [| discriminate].
  destruct (quote_high q) as [h |]; [| discriminate].
  destruct (quote_low q) as [l |]; [| discriminate].
  destruct (quote_close q) as [c |]; [| discriminate].
  destruct (quote_volume q) as [v |]; [| discriminate].
  cbn [access bind] in Hrow.
  destruct (all_positive (cell o i) (cell h i) (cell l i) (cell c i))
    eqn:Hpos; inversion Hrow; subst; [| exact Hacc].
  apply Forall_app. split; [exact Hacc |].
  constructor; [| constructor].
  now apply all_positive_iff in Hpos.
Qed.

Lemma chart_loop_positive (q : Quote) (rest : list jnum) :
  forall i acc cs,
    chart_loop q rest i acc = Return cs ->
    Forall positive_prices acc -> Forall positive_prices cs.
Proof.
  induction rest as [| t rest IH]; intros i acc cs Hloop Hacc.
  - cbn in Hloop. inversion Hloop. now subst.
  - cbn [chart_loop] in Hloop.
    destruct (chart_row q i t acc) as [acc' |] eqn:Hrow; [| discriminate].
    cbn [bind] in Hloop.
    apply (IH (S i) acc' cs Hloop).
    exact (chart_row_positive q i t acc acc' Hrow Hacc).
Qed.

(** What a 200 reply of the chart handler is made of. *)
Lemma stock_chart_reply200 (f : fetch_outcome) (candles : list Candle) :
  stock_chart f = Reply200 candles ->
  exists q ts rows,
    chart_loop q ts 0 [] = Return rows /\
    candles = Array_sort by_time rows.
Proof.
  unfold stock_chart, fetch_json. intros H.
  destruct f as [| response]; [discriminate |].
  destruct (ok response); [| discriminate].
  destruct (json response) as [data |]; [| discriminate].
  cbn [negb bind] in H.
  destruct (first_result data) as [r |]; [| discriminate].
  destruct (indicators r) as [ind |]; [| discriminate].
  cbn [access bind] in H.
  destruct (quote ind) as [quotes |]; [| discriminate].
  cbn [access bind] in H.
  destruct (no_quote_data _); [discriminate |].
  destruct (match quotes with [] => None | q :: _ => q end) as [q |];
    [| discriminate].
  cbn [access bind] in H.
  destruct (chart_loop q _ 0%nat []) as [rows |] eqn:Hloop; [| discriminate].
  cbn [bind try_catch] in H. inversion H.
  now exists q, (match timestamp r with Some t => t | None => [] end), rows.
Qed.

(** X18.  Whatever the upstream payload, no candle of a 200 reply of the
    chart handler has an open, high, low or close that is zero or
    negative. *)
Theorem stock_chart_positive_candles
  (f : fetch_outcome) (candles : list Candle) :
  stock_chart f = Reply200 candles ->
  Forall positive_prices candles.
Proof.
  intros Hreply.
  destruct (stock_chart_reply200 f candles Hreply)
    as (q & ts & rows & Hloop & ->).
  eapply Permutation_Forall; [symmetry; apply Array_sort_perm |].
  exact (chart_loop_positive q ts 0%nat [] rows Hloop (Forall_nil _)).
Qed.

Lemma stock_chart_positive_candles_witness :
  Forall positive_prices Scenario.first_and_third.
Proof.
  apply (stock_chart_positive_candles Scenario.three_rows).
  vm_compute. reflexivity.
Defined.

(** X19.  A payload whose first result lacks [indicators] or
    [indicators.quote], or whose first quote entry has an [open] array but
    lacks the [high], [low], [close] or [volume] array while there is a
    timestamp, is answered 500 (a [TypeError] caught by the handler), not
    404. *)
Theorem stock_chart_type_error
  (response : Response) (data : Data) (r : ChartResult) :
  ok response = true -> json response = Some data ->
  first_result data = Some r ->
  (indicators r = None \/
   (exists ind, indicators r = Some ind /\ quote ind = None) \/
   (exists ind q quotes o0 o t ts,
       indicators r = Some ind /\ quote ind = Some (Some q :: quotes) /\
       quote_open q = Some (o0 :: o) /\ timestamp r = Some (t :: ts) /\
       (quote_high q = None \/ quote_low q = None \/
        quote_close q = None \/ quote_volume q = None))) ->
  stock_chart (Fetched response) = Reply500 TypeError.
Proof.
  intros Hok Hjson Hres Hmissing. unfold stock_chart, fetch_json.
  rewrite Hok, Hjson. cbn [negb bind]. rewrite Hres.
  destruct Hmissing as [Hind | [(ind & Hind & Hquote) |
    (ind & q & quotes & o0 & o & t & ts & Hind & Hquote & Hopen & Hts
     & Harr)]]; rewrite Hind; cbn [access bind]; [reflexivity | |];
    rewrite Hquote; cbn [access bind]; [reflexivity |].
  cbn [no_quote_data]. rewrite Hopen, Hts.
  cbn [access bind chart_loop]. unfold chart_row, price_at.
  rewrite Hopen. cbn [access bind].
  destruct (quote_high q) as [h |]; [| reflexivity].
  destruct (quote_low q) as [l |]; [| reflexivity].
  destruct (quote_close q) as [c |]; [| reflexivity].
  destruct (quote_volume q) as [v |]; [| reflexivity].
  destruct Harr as [H | [H | [H | H]]]; discriminate.
Qed.

Lemma stock_chart_type_error_witness :
  stock_chart (Fetched Scenario.no_high_array) = Reply500 TypeError.
Proof.
  eapply (stock_chart_type_error Scenario.no_high_array);
    [reflexivity | reflexivity | reflexivity |].
  right. right. do 7 eexists.
  repeat split; try reflexivity. left. reflexivity.
Defined.

(** X20.  A payload whose first quote entry has a non-empty [open] array but
    whose first result has no timestamps (absent or empty) is answered 200
    with no candles, whether or not the other arrays are there. *)
Theorem stock_chart_no_timestamps
  (response : Response) (data : Data) (r : ChartResult) (ind : Indicators)
  (q : Quote) (quotes : list (option Quote)) (o0 : jnum) (o : list jnum) :
  ok response = true -> json response = Some data ->
  first_result data = Some r ->
  indicators r = Some ind -> quote ind = Some (Some q :: quotes) ->
  quote_open q = Some (o0 :: o) ->
  timestamp r = None \/ timestamp r = Some [] ->
  stock_chart (Fetched response) = Reply200 [].
Proof.
  intros Hok Hjson Hres Hind Hquote Hopen Hts.
  unfold stock_chart, fetch_json.
  rewrite Hok, Hjson. cbn [negb bind]. rewrite Hres, Hind.
  cbn [access bind]. rewrite Hquote. cbn [access bind no_quote_data].
  rewrite Hopen. cbn [access bind].
  destruct Hts as [-> | ->]; reflexivity.
Qed.

Lemma stock_chart_no_timestamps_witness :
  stock_chart (Fetched Scenario.no_timestamps) = Reply200 [].
Proof.
  eapply (stock_chart_no_timestamps Scenario.no_timestamps);
    try reflexivity.
  left. reflexivity.
Defined.

(** The sort keeps the order of the elements that have a given time. *)
Lemma sort_insert_same_time (t : Z) (x : Candle) (l : list Candle) :
  filter (fun cd => time cd =? t) (sort_insert by_time x l)
  = filter (fun cd => time cd =? t) (x :: l).
Proof.
  induction l as [| y l IH]; [reflexivity |].
  cbn [sort_insert]. unfold by_time at 1.
  destruct (Z.leb_spec (time x - time y) 0) as [_ | Hgt]; [reflexivity |].
  cbn [filter] in *. rewrite IH.
  destruct (Z.eqb_spec (time x) t) as [Hx | _],
           (Z.eqb_spec (time y) t) as [Hy | _]; try reflexivity.
  lia.
Qed.

Lemma Array_sort_same_time (t : Z) (l : list Candle) :
  filter (fun cd => time cd =? t) (Array_sort by_time l)
  = filter (fun cd => time cd =? t) l.
Proof.
  induction l as [| x l IH]; [reflexivity |].
  cbn [Array_sort]. rewrite sort_insert_same_time.
  cbn [filter]. now rewrite IH.
Qed.

(** X21.  Candles that have the same time come out in the order of their
    rows upstream: for every time [t], the candles of the reply with that
    time are the candles of the kept rows with that time, in index order. *)
Theorem stock_chart_stable
  (f : fetch_outcome) (ts o h l c v : list jnum) (candles : list Candle)
  (t : Z) :
  carries_arrays f ts o h l c v ->
  stock_chart f = Reply200 candles ->
  filter (fun cd => time cd =? t) candles
  = map (row_candle ts o h l c v)
      (filter (fun i => row_kept o h l c i
                        && (candle_time (index ts i) =? t))
         (seq 0 (List.length ts))).
Proof.
  intros Harr Hreply.
  rewrite (stock_chart_arrays f ts o h l c v Harr) in Hreply.
  destruct o as [| o0 o']; [discriminate |].
  inversion Hreply as [Hcandles]. clear Hreply Hcandles.
  rewrite Array_sort_same_time.
  generalize (seq 0 (List.length ts)). intros indices.
  induction indices as [| i indices IH]; [reflexivity |].
  cbn [filter map].
  destruct (row_kept (o0 :: o') h l c i); cbn [andb map filter];
    [| exact IH].
  change (time (row_candle ts (o0 :: o') h l c v i))
    with (candle_time (index ts i)).
  destruct (candle_time (index ts i) =? t); cbn [map]; now rewrite IH.
Qed.

Lemma stock_chart_stable_witness :
  filter (fun cd => time cd =? 200) Scenario.same_time_sorted
  = map (row_candle [Some 200; Some 100; Some 200]%Q
           [Some 1; Some 2; Some 3]%Q [Some 1; Some 2; Some 3]%Q
           [Some 1; Some 2; Some 3]%Q [Some 1; Some 2; Some 3]%Q
           [Some 1; Some 2; Some 3]%Q)
      (filter (fun i => row_kept [Some 1; Some 2; Some 3]%Q
                          [Some 1; Some 2; Some 3]%Q
                          [Some 1; Some 2; Some 3]%Q
                          [Some 1; Some 2; Some 3]%Q i
                        && (candle_time
                              (index [Some 200; Some 100; Some 200]%Q i)
                            =? 200))
         (seq 0 (List.length [Some 200; Some 100; Some 200]%Q))).
Proof.
  apply (stock_chart_stable Scenario.same_time_rows).
  - unfold carries_arrays, Scenario.same_time_rows, Scenario.chart_response.
    eexists _, _, _, _, _. repeat split; reflexivity.
  - vm_compute. reflexivity.
Defined.

(** X22.  How the price handler fails: a rejected fetch, a non-success
    status, a body that does not parse and a first result without [meta] are
    answered 500; a parsed payload without [chart], without [chart.result]
    or with an empty [result] is answered 404 "No data found"; and a 404 is
    given in no other case. *)
Theorem stock_price_failures (now : Q) :
  stock_price Rejected now = Reply500 FetchFailed /\
  (forall response,
      (ok response = false ->
       stock_price (Fetched response) now
       = Reply500 (HttpError (status response))) /\
      (ok response = true -> json response = None ->
       stock_price (Fetched response) now = Reply500 SyntaxError) /\
      (forall data,
          ok response = true -> json response = Some data ->
          (chart data = None \/
           exists ch, chart data = Some ch /\
                      (result ch = None \/ result ch = Some [])) ->
          stock_price (Fetched response) now
          = Reply404 "No data found"%string) /\
      (forall data r,
          ok response = true -> json response = Some data ->
          first_result data = Some r -> meta r = None ->
          stock_price (Fetched response) now = Reply500 TypeError)) /\
  (forall f error,
      stock_price f now = Reply404 error ->
      error = "No data found"%string /\
      exists response data,
        f = Fetched response /\ ok response = true /\
        json response = Some data /\
        (chart data = None \/
         exists ch, chart data = Some ch /\
                    (result ch = None \/ result ch = Some []))).
Proof.
  split; [reflexivity |]. split.
  - intros response. unfold stock_price, fetch_json. repeat split.
    + intros Hok. now rewrite Hok.
    + intros Hok Hjson. now rewrite Hok, Hjson.
    + intros data Hok Hjson Habsent. rewrite Hok, Hjson. cbn [negb bind].
      assert (Hnone : first_result data = None).
      { unfold first_result.
        destruct Habsent as [-> | (ch & -> & [-> | ->])]; reflexivity. }
      now rewrite Hnone.
    + intros data r Hok Hjson Hres Hmeta. rewrite Hok, Hjson.
      cbn [negb bind]. now rewrite Hres, Hmeta.
  - intros f error. unfold stock_price, fetch_json. intros H.
    destruct f as [| response]; [discriminate |].
    destruct (ok response) eqn:Hok; [| discriminate].
    destruct (json response) as [data |] eqn:Hjson; [| discriminate].
    cbn [negb bind] in H.
    destruct (first_result data) as [r |] eqn:Hres.
    + destruct (meta r) as [m |]; [| discriminate].
      cbn [access bind] in H.
      destruct (market_time_string m now); discriminate.
    + cbn [try_catch] in H. inversion H. split; [reflexivity |].
      exists response, data. repeat split; try assumption.
      unfold first_result in Hres.
      destruct (chart data) as [ch |]; [| now left].
      right. exists ch. split; [reflexivity |].
      destruct (result ch) as [[| r rs] |]; [now right | discriminate |
                                              now left].
Qed.

(** X23.  The time of a candle is an integer at most 10^12 for every
    timestamp up to 10^15, and normalising such a time again returns it
    unchanged. *)
Theorem candle_time_idempotent (timestamp : jnum) :
  (to_number timestamp <= 1000000000000000)%Q ->
  candle_time timestamp <= 1000000000000 /\
  candle_time (Some (inject_Z (candle_time timestamp)))
  = candle_time timestamp.
Proof.
  intros Hbound.
  assert (Hle : candle_time timestamp <= 1000000000000).
  { unfold candle_time.
    destruct (Qlt_bool 1000000000000 (to_number timestamp)) eqn:Hms.
    - change 1000000000000 with (Qfloor (1000000000000000 / 1000)).
      apply Qfloor_resp_le. unfold Qdiv.
      apply Qmult_le_compat_r; [exact Hbound | discriminate].
    - change 1000000000000 with (Qfloor 1000000000000).
      apply Qfloor_resp_le. apply Qnot_lt_le. intros Hlt.
      apply Qlt_bool_iff in Hlt. congruence. }
  split; [exact Hle |].
  rewrite candle_time_integer.
  destruct (Z.ltb_spec 1000000000000 (candle_time timestamp));
    [lia | reflexivity].
Qed.

Lemma candle_time_idempotent_witness :
  candle_time (Some 1700000000000%Q) <= 1000000000000 /\
  candle_time (Some (inject_Z (candle_time (Some 1700000000000%Q))))
  = candle_time (Some 1700000000000%Q).
Proof.
  apply (candle_time_idempotent (Some 1700000000000%Q)).
  discriminate.
Defined.
